(** * CAIDA spoofer collector: a shallow embedding of [spoofer_collector.py]

    The development follows the layout of the source file.  Python values
    coming out of [response.json()] are an inductive type, Python exceptions
    are an explicit result type, wall-clock readings are IEEE binary64
    numbers (the kernel's primitive floats, which is what a Python [float]
    is), and the collector object, the console, the network and the two
    output streams are threaded through a small state-and-error monad. *)

From Stdlib Require Import ZArith List String Ascii Bool Lia.
From Stdlib Require Import DecimalString.
From Stdlib Require PrimFloat SpecFloat FloatOps Uint63.
Import ListNotations.

Open Scope Z_scope.
Open Scope string_scope.

(** ** Python values, exceptions and results *)

(** The values [json.loads] builds.  A character is a code point below 256;
    numbers with a fraction or an exponent are left out of the model (the
    API's session fields are strings and integers). *)
#[warning="-register-all"]
Inductive pyval : Type :=
| PNone
| PBool (b : bool)
| PInt (n : Z)
| PStr (s : string)
| PList (items : list pyval)
| PDict (entries : list (string * pyval)).

Inductive exn : Type :=
| AttributeError
| TypeError
| KeyError
| ValueError
| IndexError
| ZeroDivisionError
| OverflowError
| OSError.

(** [Ok] is a normal return, [Raise] an exception leaving the function, and
    [OutOfFuel] says that the bound put on a [while] loop was too small. *)
Inductive result (A : Type) : Type :=
| Ok (a : A)
| Raise (e : exn)
| OutOfFuel.

Arguments Ok {A} a.
Arguments Raise {A} e.
Arguments OutOfFuel {A}.

Definition and_then {A B : Type} (r : result A) (k : A -> result B) : result B :=
  match r with
  | Ok a => k a
  | Raise e => Raise e
  | OutOfFuel => OutOfFuel
  end.

Notation "'let?' x := r 'in' k" := (and_then r (fun x => k))
  (at level 10, x name, r at level 100, k at level 200).

(** ** Strings *)

Module Str.

(** [s.startswith(p)] *)
Fixpoint startswith (s p : string) {struct p} : bool :=
  match p with
  | EmptyString => true
  | String a p' =>
      match s with
      | EmptyString => false
      | String b s' => Ascii.eqb a b && startswith s' p'
      end
  end.

(** [s.split(sep)] for a separator of one character, which is what the
    source uses ("&" and "=").  The result is never empty. *)
Fixpoint split (sep : ascii) (s : string) : list string :=
  match s with
  | EmptyString => [EmptyString]
  | String c rest =>
      if Ascii.eqb c sep then EmptyString :: split sep rest
      else match split sep rest with
           | [] => [String c EmptyString]
           | seg :: segs => String c seg :: segs
           end
  end.

(** [sub in s] on strings *)
Definition contains (s sub : string) : bool :=
  match String.index 0 sub s with
  | Some _ => true
  | None => false
  end.

(** [sep.join(parts)] *)
Definition join (sep : string) (parts : list string) : string :=
  String.concat sep parts.

(** The characters of a string, as [for ch in s] yields them. *)
Fixpoint chars (s : string) : list string :=
  match s with
  | EmptyString => []
  | String c rest => String c EmptyString :: chars rest
  end.

Fixpoint mem (c : ascii) (s : string) : bool :=
  match s with
  | EmptyString => false
  | String d rest => Ascii.eqb c d || mem c rest
  end.

End Str.

(** ** Integers as text *)

Module Int.

(** [str(n)] for an [int] *)
Definition to_str (n : Z) : string := NilZero.string_of_int (Z.to_int n).

Definition is_digit (c : ascii) : bool :=
  let k := nat_of_ascii c in (48 <=? k)%nat && (k <=? 57)%nat.

Definition digit_value (c : ascii) : Z := Z.of_nat (nat_of_ascii c) - 48.

(** What [int()] strips at both ends: tab, newline, vertical tab, form feed,
    carriage return and space, and the two Latin-1 spaces. *)
Definition is_space (c : ascii) : bool :=
  let k := nat_of_ascii c in
  ((9 <=? k)%nat && (k <=? 13)%nat) || (k =? 32)%nat || (k =? 133)%nat || (k =? 160)%nat.

Fixpoint lstrip (s : string) : string :=
  match s with
  | String c rest => if is_space c then lstrip rest else s
  | EmptyString => EmptyString
  end.

Fixpoint all_space (s : string) : bool :=
  match s with
  | EmptyString => true
  | String c rest => is_space c && all_space rest
  end.

(** Digits with single underscores between them, then optional spaces.
    [acc] is the value read so far and [after_digit] says whether the
    previous character was a digit. *)
Fixpoint digits (acc : Z) (after_digit : bool) (s : string) : option Z :=
  match s with
  | EmptyString => if after_digit then Some acc else None
  | String c rest =>
      if is_digit c then digits (10 * acc + digit_value c) true rest
      else if Ascii.eqb c "_" then
             if after_digit then
               match rest with
               | String d _ => if is_digit d then digits acc false rest else None
               | EmptyString => None
               end
             else None
      else if after_digit && all_space s then Some acc
      else None
  end.

(** [int(s)] for a string, base ten: [None] stands for [ValueError]. *)
Definition of_str (s : string) : option Z :=
  match lstrip s with
  | String "-" rest => option_map Z.opp (digits 0 false rest)
  | String "+" rest => digits 0 false rest
  | body => digits 0 false body
  end.

End Int.

(** ** Operations on Python values *)

Module Py.

(** Truth value testing, as [if v:] and [while v:] do it. *)
Definition truthy (v : pyval) : bool :=
  match v with
  | PNone => false
  | PBool b => b
  | PInt n => negb (n =? 0)%Z
  | PStr s => negb (s =? "")%string
  | PList items => match items with [] => false | _ :: _ => true end
  | PDict entries => match entries with [] => false | _ :: _ => true end
  end.

(** A dictionary is the list of its items in insertion order; [json.loads]
    keeps one entry per key, so the first entry found is the entry. *)
Fixpoint lookup (key : string) (entries : list (string * pyval)) : option pyval :=
  match entries with
  | [] => None
  | (k, v) :: rest => if (k =? key)%string then Some v else lookup key rest
  end.

(** [d.get(key, default)]; only a [dict] has the method. *)
Definition get (d : pyval) (key : string) (default : pyval) : result pyval :=
  match d with
  | PDict entries =>
      Ok (match lookup key entries with Some v => v | None => default end)
  | _ => Raise AttributeError
  end.

(** [v == s] for a string literal [s] *)
Definition eq_str (v : pyval) (s : string) : bool :=
  match v with
  | PStr t => (t =? s)%string
  | _ => false
  end.

(** [key in v] for a string [key] *)
Definition contains (v : pyval) (key : string) : result bool :=
  match v with
  | PDict entries =>
      Ok (match lookup key entries with Some _ => true | None => false end)
  | PList items => Ok (existsb (fun item => eq_str item key) items)
  | PStr s => Ok (Str.contains s key)
  | _ => Raise TypeError
  end.

(** [v[key]] for a string [key] *)
Definition getitem (v : pyval) (key : string) : result pyval :=
  match v with
  | PDict entries =>
      match lookup key entries with
      | Some item => Ok item
      | None => Raise KeyError
      end
  | _ => Raise TypeError
  end.

(** The items [for x in v] goes through. *)
Definition iter (v : pyval) : result (list pyval) :=
  match v with
  | PList items => Ok items
  | PDict entries => Ok (map (fun kv => PStr (fst kv)) entries)
  | PStr s => Ok (map PStr (Str.chars s))
  | _ => Raise TypeError
  end.

(** [len(v)] *)
Definition len (v : pyval) : result Z :=
  match v with
  | PList items => Ok (Z.of_nat (List.length items))
  | PDict entries => Ok (Z.of_nat (List.length entries))
  | PStr s => Ok (Z.of_nat (String.length s))
  | _ => Raise TypeError
  end.

Definition hex_digit (k : nat) : ascii :=
  match k with
  | 0 => "0" | 1 => "1" | 2 => "2" | 3 => "3" | 4 => "4" | 5 => "5"
  | 6 => "6" | 7 => "7" | 8 => "8" | 9 => "9" | 10 => "a" | 11 => "b"
  | 12 => "c" | 13 => "d" | 14 => "e" | _ => "f"
  end%nat%char.

(** What [repr] writes for one character inside the quotes [quote]. *)
Definition repr_char (quote c : ascii) : string :=
  let k := nat_of_ascii c in
  if Ascii.eqb c quote || Ascii.eqb c "\" then String "\" (String c "")
  else if (k =? 9)%nat then "\t"
  else if (k =? 10)%nat then "\n"
  else if (k =? 13)%nat then "\r"
  else if (k <? 32)%nat || ((127 <=? k)%nat && (k <=? 160)%nat) || (k =? 173)%nat
       then String "\" (String "x"
              (String (hex_digit (k / 16)) (String (hex_digit (k mod 16)) "")))
  else String c "".

Fixpoint repr_chars (quote : ascii) (s : string) : string :=
  match s with
  | EmptyString => ""
  | String c rest => repr_char quote c ++ repr_chars quote rest
  end.

Definition double_quote : ascii := ascii_of_nat 34.

(** [repr(s)] for a string: single quotes, unless the text has a single
    quote and no double quote. *)
Definition repr_str (s : string) : string :=
  let quote : ascii :=
    if Str.mem "'" s && negb (Str.mem double_quote s) then double_quote else "'"%char in
  String quote (repr_chars quote s ++ String quote "").

(** [repr(v)] *)
Fixpoint repr (v : pyval) : string :=
  match v with
  | PNone => "None"
  | PBool true => "True"
  | PBool false => "False"
  | PInt n => Int.to_str n
  | PStr s => repr_str s
  | PList items => "[" ++ Str.join ", " (map repr items) ++ "]"
  | PDict entries =>
      "{" ++ Str.join ", "
               (map (fun kv => repr_str (fst kv) ++ ": " ++ repr (snd kv)) entries)
          ++ "}"
  end.

(** [str(v)], which is also what an f-string field [{v}] writes. *)
Definition str (v : pyval) : string :=
  match v with
  | PStr s => s
  | _ => repr v
  end.

End Py.

(** ** Python floats

    A Python [float] is an IEEE binary64 number.  The arithmetic is the
    kernel's; conversions from and to [int], the remainder and the fixed
    point rendering go through the exact value [m * 2^e] of a finite
    number, read with [Prim2SF]. *)

Module Flt.

Import SpecFloat FloatOps.

(** [float(n)], rounding to nearest, ties to even; too large an integer is
    an [OverflowError]. *)
Definition of_int (n : Z) : result PrimFloat.float :=
  match binary_normalize prec emax n 0 false with
  | S754_infinity _ => Raise OverflowError
  | sf => Ok (SF2Prim sf)
  end.

(** The exact value of [m * 2^e], truncated towards zero. *)
Definition trunc_pow2 (m : positive) (e : Z) : Z :=
  if (0 <=? e)%Z then Zpos m * 2 ^ e else Zpos m / 2 ^ (- e).

(** [int(x)]: truncation towards zero; a NaN is a [ValueError] and an
    infinity an [OverflowError]. *)
Definition to_int (x : PrimFloat.float) : result Z :=
  match Prim2SF x with
  | S754_zero _ => Ok 0
  | S754_finite s m e => Ok (if s then - trunc_pow2 m e else trunc_pow2 m e)
  | S754_infinity _ => Raise OverflowError
  | S754_nan => Raise ValueError
  end.

(** [x < n] for an integer [n]: Python compares the exact values. *)
Definition lt_int (x : PrimFloat.float) (n : Z) : bool :=
  match Prim2SF x with
  | S754_zero _ => (0 <? n)%Z
  | S754_finite s m e =>
      let v := if s then Zneg m else Zpos m in
      if (0 <=? e)%Z then (v * 2 ^ e <? n)%Z else (v <? n * 2 ^ (- e))%Z
  | S754_infinity s => s
  | S754_nan => false
  end.

(** [x / n] for an integer [n] *)
Definition div_int (x : PrimFloat.float) (n : Z) : result PrimFloat.float :=
  let? d := of_int n in
  if PrimFloat.eqb d PrimFloat.zero then Raise ZeroDivisionError
  else Ok (PrimFloat.div x d).

(** [n / x] for an integer [n] *)
Definition int_div (n : Z) (x : PrimFloat.float) : result PrimFloat.float :=
  let? a := of_int n in
  if PrimFloat.eqb x PrimFloat.zero then Raise ZeroDivisionError
  else Ok (PrimFloat.div a x).

(** [n * x] for an integer [n] *)
Definition int_mul (n : Z) (x : PrimFloat.float) : result PrimFloat.float :=
  let? a := of_int n in Ok (PrimFloat.mul a x).

(** C's [fmod]: the exact remainder of the truncated division, with the
    sign of [x]. *)
Definition fmod (x y : PrimFloat.float) : PrimFloat.float :=
  match Prim2SF x, Prim2SF y with
  | S754_nan, _ | _, S754_nan => PrimFloat.nan
  | S754_infinity _, _ => PrimFloat.nan
  | _, S754_zero _ => PrimFloat.nan
  | S754_zero _, _ => x
  | S754_finite _ _ _, S754_infinity _ => x
  | S754_finite sx mx ex, S754_finite _ my ey =>
      let e := Z.min ex ey in
      let r := (Zpos mx * 2 ^ (ex - e)) mod (Zpos my * 2 ^ (ey - e)) in
      if (r =? 0)%Z then (if sx then PrimFloat.neg_zero else PrimFloat.zero)
      else SF2Prim (binary_normalize prec emax (if sx then - r else r) e false)
  end.

(** [x % n] for an integer [n]: the remainder takes the sign of [n]. *)
Definition mod_int (x : PrimFloat.float) (n : Z) : result PrimFloat.float :=
  let? w := of_int n in
  if PrimFloat.eqb w PrimFloat.zero then Raise ZeroDivisionError
  else
    let m := fmod x w in
    if PrimFloat.eqb m PrimFloat.zero
    then Ok (if PrimFloat.ltb w PrimFloat.zero
             then PrimFloat.neg_zero else PrimFloat.zero)
    else if xorb (PrimFloat.ltb w PrimFloat.zero) (PrimFloat.ltb m PrimFloat.zero)
         then Ok (PrimFloat.add m w)
         else Ok m.

(** [num / den] rounded to the nearest integer, ties to even, for
    [0 <= num] and [0 < den]. *)
Definition round_half_even (num den : Z) : Z :=
  let q := num / den in
  let r := num mod den in
  if (2 * r <? den)%Z then q
  else if (den <? 2 * r)%Z then q + 1
  else if Z.even q then q else q + 1.

Definition two_digits (n : Z) : string :=
  if (n <? 10)%Z then "0" ++ Int.to_str n else Int.to_str n.

(** The format [":.2f"]. *)
Definition fixed2 (x : PrimFloat.float) : string :=
  match Prim2SF x with
  | S754_nan => "nan"
  | S754_infinity s => if s then "-inf" else "inf"
  | S754_zero s => if s then "-0.00" else "0.00"
  | S754_finite s m e =>
      let hundredths :=
        if (0 <=? e)%Z then Zpos m * 100 * 2 ^ e
        else round_half_even (Zpos m * 100) (2 ^ (- e)) in
      (if s then "-" else "")
        ++ Int.to_str (hundredths / 100) ++ "." ++ two_digits (hundredths mod 100)
  end.

End Flt.

(** ** The world the collector runs in *)

(** How one HTTP attempt ([requests.get], [raise_for_status] and [json])
    ends: with the parsed body, with a [RequestException] (carrying its
    text), or with an exception of another class. *)
Inductive outcome : Type :=
| Response (body : pyval)
| RequestError (msg : string)
| OtherError (e : exn).

(** What the program cannot decide: the answer to the k-th request it
    makes, the k-th reading of [time.time()], the text of
    [datetime.now().strftime(...)] and whether a path can be opened for
    writing. *)
Record env : Type := {
  net : nat -> string -> outcome;
  clock : nat -> PrimFloat.float;
  now_text : string;
  can_open : string -> bool
}.

(** What the program does to the outside, in order. *)
Inductive event : Type :=
| Get (url : string)
| Sleep (seconds : Z)
| Print (line : string)
| StdoutWrite (text : string)
| StdoutFlush.

Inductive file_status : Type := Unopened | IsOpen | IsClosed.

(** An output stream: its status and the texts written to it, in order. *)
Record stream : Type := {
  status : file_status;
  written : list string
}.

(** The fields of a [SpooferCollector] ([headers] is a constant). *)
Record collector : Type := {
  start_date : string;
  routed_output : string;
  private_output : string;
  api_base : string;
  total_records : Z;
  total_routed : Z;
  total_private : Z;
  page : Z;
  start_time : PrimFloat.float;
  pages_processed : Z;
  estimated_total_pages : option Z
}.

Record state : Type := {
  self : collector;
  requests : nat;
  ticks : nat;
  trace : list event;
  routed_file : stream;
  private_file : stream
}.

Definition set_self (c : collector) (st : state) : state :=
  {| self := c; requests := requests st; ticks := ticks st; trace := trace st;
     routed_file := routed_file st; private_file := private_file st |}.

Definition set_routed_file (f : stream) (st : state) : state :=
  {| self := self st; requests := requests st; ticks := ticks st;
     trace := trace st; routed_file := f; private_file := private_file st |}.

Definition set_private_file (f : stream) (st : state) : state :=
  {| self := self st; requests := requests st; ticks := ticks st;
     trace := trace st; routed_file := routed_file st; private_file := f |}.

Definition log (ev : event) (st : state) : state :=
  {| self := self st; requests := requests st; ticks := ticks st;
     trace := trace st ++ [ev];
     routed_file := routed_file st; private_file := private_file st |}.

Definition count_request (st : state) : state :=
  {| self := self st; requests := S (requests st); ticks := ticks st;
     trace := trace st; routed_file := routed_file st;
     private_file := private_file st |}.

Definition count_tick (st : state) : state :=
  {| self := self st; requests := requests st; ticks := S (ticks st);
     trace := trace st; routed_file := routed_file st;
     private_file := private_file st |}.

Definition add_pages_processed (k : Z) (c : collector) : collector :=
  {| start_date := start_date c; routed_output := routed_output c;
     private_output := private_output c; api_base := api_base c;
     total_records := total_records c; total_routed := total_routed c;
     total_private := total_private c; page := page c;
     start_time := start_time c; pages_processed := pages_processed c + k;
     estimated_total_pages := estimated_total_pages c |}.

Definition set_estimated_total_pages (n : Z) (c : collector) : collector :=
  {| start_date := start_date c; routed_output := routed_output c;
     private_output := private_output c; api_base := api_base c;
     total_records := total_records c; total_routed := total_routed c;
     total_private := total_private c; page := page c;
     start_time := start_time c; pages_processed := pages_processed c;
     estimated_total_pages := Some n |}.

Definition add_totals (records routed private : Z) (c : collector) : collector :=
  {| start_date := start_date c; routed_output := routed_output c;
     private_output := private_output c; api_base := api_base c;
     total_records := total_records c + records;
     total_routed := total_routed c + routed;
     total_private := total_private c + private; page := page c;
     start_time := start_time c; pages_processed := pages_processed c;
     estimated_total_pages := estimated_total_pages c |}.

Definition add_page (k : Z) (c : collector) : collector :=
  {| start_date := start_date c; routed_output := routed_output c;
     private_output := private_output c; api_base := api_base c;
     total_records := total_records c; total_routed := total_routed c;
     total_private := total_private c; page := page c + k;
     start_time := start_time c; pages_processed := pages_processed c;
     estimated_total_pages := estimated_total_pages c |}.

(** ** The monad: a state, and a result that may be an exception *)

Definition M (A : Type) : Type := state -> result A * state.

Definition ret {A : Type} (a : A) : M A := fun st => (Ok a, st).

Definition bind {A B : Type} (c : M A) (k : A -> M B) : M B :=
  fun st =>
    match c st with
    | (Ok a, st') => k a st'
    | (Raise e, st') => (Raise e, st')
    | (OutOfFuel, st') => (OutOfFuel, st')
    end.

Notation "x <- c ;; k" := (bind c (fun x => k))
  (at level 61, c at next level, right associativity).
Notation "c ;; k" := (bind c (fun _ => k))
  (at level 61, right associativity).

Definition raise {A : Type} (e : exn) : M A := fun st => (Raise e, st).

Definition out_of_fuel {A : Type} : M A := fun st => (OutOfFuel, st).

(** A pure computation that may raise. *)
Definition lift {A : Type} (r : result A) : M A := fun st => (r, st).

Definition get_self : M collector := fun st => (Ok (self st), st).

Definition modify_self (f : collector -> collector) : M unit :=
  fun st => (Ok tt, set_self (f (self st)) st).

(** [for x in items: acc = body(x, acc)] *)
Fixpoint for_each {A B : Type} (body : A -> B -> M B) (items : list A) (acc : B) : M B :=
  match items with
  | [] => ret acc
  | x :: rest => acc' <- body x acc ;; for_each body rest acc'
  end.

(** *** The effects of the standard library *)

Definition print (line : string) : M unit := fun st => (Ok tt, log (Print line) st).

Definition stdout_write (text : string) : M unit :=
  fun st => (Ok tt, log (StdoutWrite text) st).

Definition stdout_flush : M unit := fun st => (Ok tt, log StdoutFlush st).

Definition sleep (seconds : Z) : M unit := fun st => (Ok tt, log (Sleep seconds) st).

(** [time.time()] *)
Definition time_time (e : env) : M PrimFloat.float :=
  fun st => (Ok (clock e (ticks st)), count_tick st).

(** One attempt: [requests.get(url, ...)], [raise_for_status()], [json()]. *)
Definition requests_get (e : env) (url : string) : M outcome :=
  fun st => (Ok (net e (requests st) url), count_request (log (Get url) st)).

(** [f.write(text)]; writing to a stream that is not open is a [ValueError]. *)
Definition write_to (f : stream) (text : string) : result stream :=
  match status f with
  | IsOpen => Ok {| status := IsOpen; written := written f ++ [text] |}
  | _ => Raise ValueError
  end.

Definition routed_write (text : string) : M unit :=
  fun st =>
    match write_to (routed_file st) text with
    | Ok f => (Ok tt, set_routed_file f st)
    | Raise e => (Raise e, st)
    | OutOfFuel => (OutOfFuel, st)
    end.

Definition private_write (text : string) : M unit :=
  fun st =>
    match write_to (private_file st) text with
    | Ok f => (Ok tt, set_private_file f st)
    | Raise e => (Raise e, st)
    | OutOfFuel => (OutOfFuel, st)
    end.

Definition opened : stream := {| status := IsOpen; written := [] |}.

Definition close (f : stream) : stream :=
  {| status := IsClosed; written := written f |}.

Definition LF : string := String (ascii_of_nat 10) "".

(** ** [SpooferCollector.fetch_page] *)

Definition max_retries : Z := 3.

(** [range(n)] *)
Definition range (n : Z) : list Z := map Z.of_nat (seq 0 (Z.to_nat n)).

(** The two diagnostics of [fetch_page]. *)
Definition retry_notice (msg : string) (retry_delay : Z) : string :=
  "Error fetching data: " ++ msg ++ ". Retrying in "
    ++ Int.to_str retry_delay ++ " seconds...".

Definition failure_notice (msg : string) : string :=
  "Failed to fetch data after " ++ Int.to_str max_retries ++ " attempts: " ++ msg.

(** The [for attempt in range(max_retries)] loop, for the attempts still to
    make and the current [retry_delay].  A loop that runs out of attempts
    falls off the end of the function, which returns [None]. *)
Fixpoint fetch_attempts (e : env) (url : string) (attempts : list Z)
    (retry_delay : Z) : M pyval :=
  match attempts with
  | [] => ret PNone
  | attempt :: rest =>
      o <- requests_get e url ;;
      match o with
      | Response body => ret body
      | RequestError msg =>
          if (attempt <? max_retries - 1)%Z then
            print (retry_notice msg retry_delay) ;;
            sleep retry_delay ;;
            fetch_attempts e url rest (retry_delay * 2)
          else
            print (failure_notice msg) ;;
            ret PNone
      | OtherError x => raise x
      end
  end.

Definition fetch_page (e : env) (url : string) : M pyval :=
  fetch_attempts e url (range max_retries) 2.

(** ** [SpooferCollector.format_record] *)

Definition format_record (session : pyval) : result string :=
  let? session_id := Py.get session "session" PNone in
  let? asn4 := Py.get session "asn4" (PStr "N/A") in
  let? client4 := Py.get session "client4" (PStr "N/A") in
  let? country := Py.get session "country" (PStr "N/A") in
  let? privatespoof := Py.get session "privatespoof" (PStr "N/A") in
  let? routedspoof := Py.get session "routedspoof" (PStr "N/A") in
  let? timestamp := Py.get session "timestamp" (PStr "N/A") in
  Ok ("Session: https://spoofer.caida.org/report.php?sessionid="
        ++ Py.str session_id ++ ", "
      ++ "ASN4 number: " ++ Py.str asn4 ++ ", "
      ++ "Client4: " ++ Py.str client4 ++ ", "
      ++ "Country: " ++ Py.str country ++ ", "
      ++ "Privatespoof: " ++ Py.str privatespoof ++ ", "
      ++ "Routedspoof: " ++ Py.str routedspoof ++ ", "
      ++ "Timestamp: " ++ Py.str timestamp).

(** ** [SpooferCollector.process_data] *)

(** The body of the loop over the members: [counts] is
    [(routed_count, private_count)]. *)
Definition process_session (session : pyval) (counts : Z * Z) : M (Z * Z) :=
  client4 <- lift (Py.get session "client4" PNone) ;;
  if Py.truthy client4 then
    routedspoof <- lift (Py.get session "routedspoof" PNone) ;;
    counts <-
      (if Py.eq_str routedspoof "received" then
         line <- lift (format_record session) ;;
         routed_write (line ++ LF) ;;
         ret (fst counts + 1, snd counts)
       else ret counts) ;;
    privatespoof <- lift (Py.get session "privatespoof" PNone) ;;
    if Py.eq_str privatespoof "received" then
      line <- lift (format_record session) ;;
      private_write (line ++ LF) ;;
      ret (fst counts, snd counts + 1)
    else ret counts
  else ret counts.

Definition process_data (data : pyval) : M (Z * Z) :=
  members <- lift (Py.get data "hydra:member" (PList [])) ;;
  sessions <- lift (Py.iter members) ;;
  for_each process_session sessions (0, 0).

(** ** [SpooferCollector.estimate_completion] *)

(** [if self.estimated_total_pages:] on [None] or an [int] *)
Definition estimate_known (estimate : option Z) : bool :=
  match estimate with
  | Some n => negb (n =? 0)%Z
  | None => false
  end.

(** The [if]/[elif]/[else] that renders the seconds left. *)
Definition format_eta (estimated_seconds_left : PrimFloat.float) : result string :=
  if Flt.lt_int estimated_seconds_left 60 then
    let? seconds := Flt.to_int estimated_seconds_left in
    Ok (Int.to_str seconds ++ " seconds")
  else if Flt.lt_int estimated_seconds_left 3600 then
    let? per60 := Flt.div_int estimated_seconds_left 60 in
    let? minutes := Flt.to_int per60 in
    Ok (Int.to_str minutes ++ " minutes")
  else
    let? per3600 := Flt.div_int estimated_seconds_left 3600 in
    let? hours := Flt.to_int per3600 in
    let? rest := Flt.mod_int estimated_seconds_left 3600 in
    let? rest60 := Flt.div_int rest 60 in
    let? minutes := Flt.to_int rest60 in
    Ok (Int.to_str hours ++ " hours, " ++ Int.to_str minutes ++ " minutes").

(** The last [else]: the processing rate. *)
Definition format_rate (avg_time_per_page : PrimFloat.float) : result string :=
  let? rate := Flt.int_div 1 avg_time_per_page in
  Ok ("Processing " ++ Flt.fixed2 rate ++ " pages/second").

Definition estimate_completion (e : env) : M string :=
  c <- get_self ;;
  if (pages_processed c <? 2)%Z then ret "Calculating..."
  else
    now <- time_time e ;;
    let elapsed_time := PrimFloat.sub now (start_time c) in
    avg_time_per_page <- lift (Flt.div_int elapsed_time (pages_processed c)) ;;
    if estimate_known (estimated_total_pages c) then
      match estimated_total_pages c with
      | Some total =>
          let remaining_pages := total - pages_processed c in
          estimated_seconds_left <- lift (Flt.int_mul remaining_pages avg_time_per_page) ;;
          lift (format_eta estimated_seconds_left)
      | None => raise TypeError
      end
    else lift (format_rate avg_time_per_page).

(** ** [SpooferCollector.update_progress] *)

(** The body of the [try]: [None] when the [except (ValueError, IndexError)]
    clause swallowed an exception or no segment matched, the page number
    otherwise.  [last_url] is a string here. *)
Definition extract_total_pages (last_url : string) : option Z :=
  let page_param :=
    filter (fun p => Str.startswith p "page=") (Str.split "&" last_url) in
  match page_param with
  | [] => None
  | p :: _ =>
      match nth_error (Str.split "=" p) 1 with
      | Some text => Int.of_str text
      | None => None
      end
  end.

Definition update_progress (data : pyval) : M unit :=
  modify_self (add_pages_processed 1) ;;
  c <- get_self ;;
  if negb (estimate_known (estimated_total_pages c)) then
    has_view <- lift (Py.contains data "hydra:view") ;;
    if has_view : bool then
      view <- lift (Py.getitem data "hydra:view") ;;
      has_last <- lift (Py.contains view "hydra:last") ;;
      if has_last : bool then
        last_url <- lift (Py.getitem view "hydra:last") ;;
        match last_url with
        | PStr u =>
            match extract_total_pages u with
            | Some n =>
                modify_self (set_estimated_total_pages n) ;;
                print ("Estimated total pages: " ++ Int.to_str n)
            | None => ret tt
            end
        | _ => raise AttributeError
        end
      else ret tt
    else ret tt
  else ret tt.

(** ** [SpooferCollector.display_progress] *)

Definition clear_line : string :=
  String (ascii_of_nat 13) (String (ascii_of_nat 27) "[K").

Definition display_progress (e : env) : M unit :=
  eta <- estimate_completion e ;;
  c <- get_self ;;
  stdout_write clear_line ;;
  stdout_write ("Page " ++ Int.to_str (page c) ++ " | "
                ++ "Total routed spoofers: " ++ Int.to_str (total_routed c) ++ " | "
                ++ "Total private spoofers: " ++ Int.to_str (total_private c) ++ " | "
                ++ "ETA: " ++ eta) ;;
  stdout_flush.

(** ** [SpooferCollector.collect_data] *)

(** [str(timedelta(seconds=n))] for an integer [n] *)
Definition timedelta_str (n : Z) : result string :=
  let days := n / 86400 in
  let seconds := n mod 86400 in
  if (999999999 <? Z.abs days)%Z then Raise OverflowError
  else
    let clock_text :=
      Int.to_str (seconds / 3600) ++ ":" ++ Flt.two_digits ((seconds / 60) mod 60)
        ++ ":" ++ Flt.two_digits (seconds mod 60) in
    Ok (if (days =? 0)%Z then clock_text
        else Int.to_str days ++ " day" ++ (if (Z.abs days =? 1)%Z then "" else "s")
               ++ ", " ++ clock_text).

(** The comment block both files start with. *)
Definition file_header (e : env) (c : collector) : string :=
  "# IPv4 clients that can spoof - Data from CAIDA Spoofer API" ++ LF
  ++ "# Collection date: " ++ now_text e ++ LF
  ++ "# Data period: " ++ start_date c ++ " to present" ++ LF
  ++ "# Format: Formatted text" ++ LF ++ LF.

(** The [if]/[else] at the end of the loop body: the next value of
    [next_url], with the page counter advanced when there is one. *)
Definition next_reference (data : pyval) : M pyval :=
  has_view <- lift (Py.contains data "hydra:view") ;;
  if has_view : bool then
    view <- lift (Py.getitem data "hydra:view") ;;
    has_next <- lift (Py.contains view "hydra:next") ;;
    if has_next : bool then
      next_url <- lift (Py.getitem view "hydra:next") ;;
      modify_self (add_page 1) ;;
      ret next_url
    else ret PNone
  else ret PNone.

(** What one turn of the loop does with a page that was fetched: it gives
    the next value of [next_url]. *)
Definition process_page (e : env) (data : pyval) : M pyval :=
  update_progress data ;;
  counts <- process_data data ;;
  members <- lift (Py.get data "hydra:member" (PList [])) ;;
  records <- lift (Py.len members) ;;
  modify_self (add_totals records (fst counts) (snd counts)) ;;
  display_progress e ;;
  next_reference data.

(** [while next_url:], run for at most [fuel] turns. *)
Fixpoint collect_loop (fuel : nat) (e : env) (next_url : pyval) : M unit :=
  if Py.truthy next_url then
    match fuel with
    | O => out_of_fuel
    | S fuel' =>
        c <- get_self ;;
        data <- fetch_page e (api_base c ++ Py.str next_url) ;;
        if negb (Py.truthy data) then
          print (LF ++ "Failed to fetch data. Stopping.")
        else
          next_url' <- process_page e data ;;
          collect_loop fuel' e next_url'
    end
  else ret tt.

(** Leaving the [with] block: both streams are closed, whether the body
    returned or raised. *)
Definition closing (body : M unit) : M unit :=
  fun st =>
    match body st with
    | (OutOfFuel, st') => (OutOfFuel, st')
    | (r, st') =>
        (r, set_routed_file (close (routed_file st'))
              (set_private_file (close (private_file st')) st'))
    end.

(** [with open(routed_output, 'w') as routed_file,
         open(private_output, 'w') as private_file: body]:
    the second stream is opened after the first, and a failure to open it
    closes the first. *)
Definition with_output_files (e : env) (body : M unit) : M unit :=
  fun st =>
    if can_open e (routed_output (self st)) then
      let st1 := set_routed_file opened st in
      if can_open e (private_output (self st)) then
        closing body (set_private_file opened st1)
      else (Raise OSError, set_routed_file (close (routed_file st1)) st1)
    else (Raise OSError, st).

(** The lines printed after the [with] block. *)
Definition print_summary (e : env) : M unit :=
  c <- get_self ;;
  now <- time_time e ;;
  let elapsed_time := PrimFloat.sub now (start_time c) in
  print (LF ++ LF ++ "Data collection complete.") ;;
  print ("Total records processed: " ++ Int.to_str (total_records c)) ;;
  print ("IPv4 clients that can spoof routed addresses: "
         ++ Int.to_str (total_routed c)) ;;
  print ("IPv4 clients that can spoof private addresses: "
         ++ Int.to_str (total_private c)) ;;
  print ("Results saved to: " ++ routed_output c ++ " and " ++ private_output c) ;;
  seconds <- lift (Flt.to_int elapsed_time) ;;
  total_time <- lift (timedelta_str seconds) ;;
  print ("Total time: " ++ total_time).

Definition collect_data (fuel : nat) (e : env) : M unit :=
  c <- get_self ;;
  let next_url := "/sessions?timestamp[after]=" ++ start_date c in
  print ("Starting data collection from " ++ start_date c ++ " to present...") ;;
  with_output_files e
    (routed_write (file_header e c) ;;
     private_write (file_header e c) ;;
     collect_loop fuel e (PStr next_url)) ;;
  print_summary e.

(** [SpooferCollector(start_date, routed_output, private_output, api_base)]:
    the constructor reads the clock once. *)
Definition new_collector (e : env) (start routed private base : string) : state :=
  {| self :=
       {| start_date := start; routed_output := routed; private_output := private;
          api_base := base; total_records := 0; total_routed := 0;
          total_private := 0; page := 1; start_time := clock e 0;
          pages_processed := 0; estimated_total_pages := None |};
     requests := 0; ticks := 1; trace := [];
     routed_file := {| status := Unopened; written := [] |};
     private_file := {| status := Unopened; written := [] |} |}.

(** ** Reading states *)

(** The state after the events [evs] and [k] more requests. *)
Definition after (evs : list event) (k : nat) (st : state) : state :=
  {| self := self st; requests := k + requests st; ticks := ticks st;
     trace := trace st ++ evs;
     routed_file := routed_file st; private_file := private_file st |}.

(** What [session.get(key)] returns for a record with the items [d]. *)
Definition field (d : list (string * pyval)) (key : string) : pyval :=
  match Py.lookup key d with
  | Some v => v
  | None => PNone
  end.

(** The record passes the test [if session.get("client4")]. *)
Definition eligible (d : list (string * pyval)) : bool :=
  Py.truthy (field d "client4").

(** The field [key] of the record is present and is the string "received". *)
Definition received (d : list (string * pyval)) (key : string) : Prop :=
  Py.lookup key d = Some (PStr "received").

(** The stream [f'] is [f] with the texts [texts] written after what it had. *)
Definition appended (f f' : stream) (texts : list string) : Prop :=
  status f' = status f /\ written f' = (written f ++ texts)%list.

(** Nothing but the two streams differs between [st] and [st']. *)
Definition same_but_files (st st' : state) : Prop :=
  self st' = self st /\ requests st' = requests st /\ ticks st' = ticks st
  /\ trace st' = trace st.

(** The reference [name] ("hydra:next", "hydra:last") of a page: the item
    [name] of the page's item "hydra:view", when both are there. *)
Definition reference (name : string) (data : pyval) : option pyval :=
  match data with
  | PDict entries =>
      match Py.lookup "hydra:view" entries with
      | Some (PDict view) => Py.lookup name view
      | _ => None
      end
  | _ => None
  end.

(** The first segment between "&" that starts with "page=". *)
Definition first_page_segment (u : string) : option string :=
  find (fun p => Str.startswith p "page=") (Str.split "&" u).

(** A string reference from which [update_progress] reads no page
    number: no segment between "&" starts with "page=", or the text
    between the first and the second "=" of the first such segment is not
    an integer literal for [int]. *)
Inductive no_page_number (u : string) : Prop :=
| no_page_segment :
    first_page_segment u = None -> no_page_number u
| value_not_integer (seg text : string) :
    first_page_segment u = Some seg ->
    nth_error (Str.split "=" seg) 1 = Some text ->
    Int.of_str text = None ->
    no_page_number u.

(** A URL with a query: [base?p1&p2&...]. *)
Definition query_url (base : string) (params : list string) : string :=
  base ++ "?" ++ Str.join "&" params.

(** *** The estimate of the time left, in the words of the specification *)

(** [(E - P) * (T / P)] in Python's arithmetic: [T / P] divides a float by
    an integer, and the product converts [E - P] to a float. *)
Definition remaining_time (E P : Z) (T : PrimFloat.float) : result PrimFloat.float :=
  let? per_page := Flt.div_int T P in
  Flt.int_mul (E - P) per_page.

Inductive eta : Type :=
| Seconds (n : Z)
| Minutes (n : Z)
| HoursMinutes (h m : Z).

(** Seconds under 60, minutes under 3600, hours and minutes otherwise; each
    number is cut to an integer. *)
Definition bucket (left : PrimFloat.float) : result eta :=
  if Flt.lt_int left 60 then
    let? n := Flt.to_int left in Ok (Seconds n)
  else if Flt.lt_int left 3600 then
    let? q := Flt.div_int left 60 in
    let? n := Flt.to_int q in Ok (Minutes n)
  else
    let? q := Flt.div_int left 3600 in
    let? h := Flt.to_int q in
    let? r := Flt.mod_int left 3600 in
    let? q' := Flt.div_int r 60 in
    let? m := Flt.to_int q' in Ok (HoursMinutes h m).

Definition render_eta (t : eta) : string :=
  match t with
  | Seconds n => Int.to_str n ++ " seconds"
  | Minutes n => Int.to_str n ++ " minutes"
  | HoursMinutes h m => Int.to_str h ++ " hours, " ++ Int.to_str m ++ " minutes"
  end.

(** The running times [timedelta] can hold. *)
Definition timedelta_range (seconds : Z) : Prop :=
  Z.abs (seconds / 86400) <= 999999999.

(** The final summary for the collector [c], as printed. *)
Definition summary (c : collector) (total_time : string) : list event :=
  [Print (LF ++ LF ++ "Data collection complete.");
   Print ("Total records processed: " ++ Int.to_str (total_records c));
   Print ("IPv4 clients that can spoof routed addresses: "
          ++ Int.to_str (total_routed c));
   Print ("IPv4 clients that can spoof private addresses: "
          ++ Int.to_str (total_private c));
   Print ("Results saved to: " ++ routed_output c ++ " and " ++ private_output c);
   Print ("Total time: " ++ total_time)].

(** The notice printed when the loop stops on a failed fetch. *)
Definition stop_notice : event := Print (LF ++ "Failed to fetch data. Stopping.").

(** [st'] has the collector, the clock position and the streams of [st]. *)
Definition frame (st st' : state) : Prop :=
  self st' = self st /\ ticks st' = ticks st
  /\ routed_file st' = routed_file st /\ private_file st' = private_file st.

(** The computation [c] never takes a request back. *)
Definition mono {A : Type} (c : M A) : Prop :=
  forall st, (requests st <= requests (snd (c st)))%nat.

(** *** Reading a page and a run *)

(** The test [session.get(key) == "received"] on a record. *)
Definition is_received (d : list (string * pyval)) (key : string) : bool :=
  Py.eq_str (field d key) "received".

(** The text written for a record: its formatted line and a line feed. *)
Definition record_line (d : list (string * pyval)) : string :=
  match format_record (PDict d) with
  | Ok line => line ++ LF
  | _ => ""
  end.

(** The texts a list of records adds to each stream, in the order of the
    records. *)
Definition routed_texts (ds : list (list (string * pyval))) : list string :=
  map record_line (filter (fun d => eligible d && is_received d "routedspoof") ds).

Definition private_texts (ds : list (list (string * pyval))) : list string :=
  map record_line (filter (fun d => eligible d && is_received d "privatespoof") ds).

(** The stream [f'] is [f] with more written after what it had. *)
Definition grows (f f' : stream) : Prop :=
  exists texts, appended f f' texts.

(** From [st] to [st'] requests and clock readings were only added, the
    console only grew, and each stream kept its status and what was
    written to it. *)
Definition advances (st st' : state) : Prop :=
  (requests st <= requests st')%nat
  /\ (ticks st <= ticks st')%nat
  /\ (exists evs, trace st' = (trace st ++ evs)%list)
  /\ grows (routed_file st) (routed_file st')
  /\ grows (private_file st) (private_file st').

Definition steady {A : Type} (c : M A) : Prop :=
  forall st, advances st (snd (c st)).

(** What a run is started with and never assigns again. *)
Definition settings (c : collector) : string * string * string * string * PrimFloat.float :=
  (start_date c, routed_output c, private_output c, api_base c, start_time c).

(** From [st] to [st'] the streams, the request count, the settings and
    the three totals are the same. *)
Definition keeps_totals (st st' : state) : Prop :=
  routed_file st' = routed_file st
  /\ private_file st' = private_file st
  /\ requests st' = requests st
  /\ settings (self st') = settings (self st)
  /\ total_records (self st') = total_records (self st)
  /\ total_routed (self st') = total_routed (self st)
  /\ total_private (self st') = total_private (self st).

Definition tidy {A : Type} (c : M A) : Prop :=
  forall st, keeps_totals st (snd (c st)).

(** The number of texts in a stream, as an integer. *)
Definition texts_in (f : stream) : Z := Z.of_nat (List.length (written f)).

(** The delays slept, in order. *)
Fixpoint sleeps (evs : list event) : list Z :=
  match evs with
  | [] => []
  | Sleep d :: rest => d :: sleeps rest
  | _ :: rest => sleeps rest
  end.

(** The requests made, in order. *)
Fixpoint gets (evs : list event) : list string :=
  match evs with
  | [] => []
  | Get url :: rest => url :: gets rest
  | _ :: rest => gets rest
  end.

(** From [st] to [st'] the streams kept their status, each total of
    matches grew by the number of texts added to its stream, and no total
    of matches grew by more than the total of records did. *)
Definition accounted (st st' : state) : Prop :=
  status (routed_file st') = status (routed_file st)
  /\ status (private_file st') = status (private_file st)
  /\ total_routed (self st') - total_routed (self st)
     = texts_in (routed_file st') - texts_in (routed_file st)
  /\ total_private (self st') - total_private (self st)
     = texts_in (private_file st') - texts_in (private_file st)
  /\ 0 <= total_routed (self st') - total_routed (self st)
       <= total_records (self st') - total_records (self st)
  /\ 0 <= total_private (self st') - total_private (self st)
       <= total_records (self st') - total_records (self st).

(** The fields [format_record] reads with the default "N/A". *)
Definition defaulted_fields : list string :=
  ["asn4"; "client4"; "country"; "privatespoof"; "routedspoof"; "timestamp"].

(** The state in which the loop of [collect_data] is entered when both
    files could be opened: the first line is printed and each stream is
    open with the header as its only text. *)
Definition at_loop_entry (e : env) (st : state) : state :=
  set_private_file
    {| status := IsOpen; written := [file_header e (self st)] |}
    (set_routed_file
       {| status := IsOpen; written := [file_header e (self st)] |}
       (log (Print ("Starting data collection from " ++ start_date (self st)
                    ++ " to present...")) st)).

(** [turns e n next st next' st']: from the state [st], with [next] as the
    value of [next_url], the loop makes [n] full turns, each one a page
    fetched and processed, and is then in [st'] with [next'] as the value
    of [next_url]. *)
Inductive turns (e : env) : nat -> pyval -> state -> pyval -> state -> Prop :=
| turns_none (next : pyval) (st : state) : turns e 0 next st next st
| turns_more (n : nat) (next data next1 next' : pyval) (st s1 s2 st' : state) :
    Py.truthy next = true ->
    fetch_page e (api_base (self st) ++ Py.str next) st = (Ok data, s1) ->
    Py.truthy data = true ->
    process_page e data s1 = (Ok next1, s2) ->
    turns e n next1 s2 next' st' ->
    turns e (S n) next st next' st'.

(** From [st] to [st'] the collector and the request count are the same. *)
Definition idle_step (st st' : state) : Prop :=
  self st' = self st /\ requests st' = requests st.

Definition idle {A : Type} (c : M A) : Prop :=
  forall st, idle_step st (snd (c st)).

(** From [st] to [st'] an estimate that was known is kept, the page number
    grew by no more than the pages processed, and the pages processed by
    no more than the requests made. *)
Definition paced (st st' : state) : Prop :=
  (estimate_known (estimated_total_pages (self st)) = true ->
   estimated_total_pages (self st') = estimated_total_pages (self st))
  /\ 0 <= page (self st') - page (self st)
       <= pages_processed (self st') - pages_processed (self st)
  /\ pages_processed (self st') - pages_processed (self st)
     <= Z.of_nat (requests st') - Z.of_nat (requests st).

(** ** Example data *)

Module Example.

Definition routed_only : list (string * pyval) :=
  [("session", PInt 101); ("client4", PStr "192.0.2.0/24");
   ("routedspoof", PStr "received"); ("privatespoof", PStr "blocked")].

Definition both : list (string * pyval) :=
  [("session", PInt 102); ("asn4", PStr "64500"); ("client4", PStr "198.51.100.0/24");
   ("country", PStr "nld"); ("privatespoof", PStr "received");
   ("routedspoof", PStr "received"); ("timestamp", PStr "2024-05-01 10:00:00")].

Definition no_address : list (string * pyval) :=
  [("session", PInt 103); ("routedspoof", PStr "received");
   ("privatespoof", PStr "received")].

Definition page_of (members : list pyval) (view : list (string * pyval)) : pyval :=
  PDict [("hydra:member", PList members); ("hydra:view", PDict view)].

(** The clock advances by four seconds at each reading. *)
Definition clock4 (k : nat) : PrimFloat.float :=
  PrimFloat.of_uint63 (Uint63.of_Z (1000 + 4 * Z.of_nat k)).

(** A server whose first two answers are errors. *)
Definition flaky (third : outcome) : env :=
  {| net := fun k _ => match k with
                       | O | 1%nat => RequestError "timed out"
                       | _ => third
                       end;
     clock := clock4;
     now_text := "2024-05-02 09:30:00";
     can_open := fun _ => true |}.

Definition fresh (e : env) : state :=
  new_collector e "2023-05-03" "routed.txt" "private.txt" "https://api.spoofer.caida.org".

(** A state inside the [with] block, before any write. *)
Definition running (e : env) : state :=
  set_private_file opened (set_routed_file opened (fresh e)).

(** A collector in the middle of a run: [pages] pages processed, the
    total estimated as [estimate]. *)
Definition midway (e : env) (pages : Z) (estimate : option Z) : state :=
  {| self :=
       {| start_date := "2023-05-03"; routed_output := "routed.txt";
          private_output := "private.txt";
          api_base := "https://api.spoofer.caida.org";
          total_records := 60; total_routed := 4; total_private := 7;
          page := pages; start_time := clock e 0;
          pages_processed := pages; estimated_total_pages := estimate |};
     requests := Z.to_nat pages; ticks := 1; trace := [];
     routed_file := opened; private_file := opened |}.

Definition steady : env := flaky (Response PNone).

(** A page with no member whose "last" reference is [last]. *)
Definition page_with_last (last : string) : pyval :=
  page_of [] [("hydra:last", PStr last)].

(** A page with no member whose "last" reference is null. *)
Definition page_null_last : pyval :=
  page_of [] [("hydra:last", PNone)].

(** A clock that does not advance. *)
Definition frozen : env :=
  {| net := fun _ _ => Response PNone;
     clock := fun _ => clock4 0;
     now_text := "2024-05-02 09:30:00";
     can_open := fun _ => true |}.

(** A server that refuses every request. *)
Definition down : env :=
  {| net := fun _ _ => RequestError "connection refused";
     clock := clock4;
     now_text := "2024-05-02 09:30:00";
     can_open := fun _ => true |}.

(** A run that has written a header and one line to each stream. *)
Definition collected (e : env) : state :=
  set_private_file
    {| status := IsOpen;
       written := [file_header e (self (midway e 3 (Some 10))); "private line" ++ LF] |}
    (set_routed_file
       {| status := IsOpen;
          written := [file_header e (self (midway e 3 (Some 10))); "routed line" ++ LF] |}
       (midway e 3 (Some 10))).

(** A page whose continuation reference is there and empty. *)
Definition page_with_empty_next : pyval :=
  page_of [PDict routed_only] [("hydra:next", PStr "")].

Definition private_only : list (string * pyval) :=
  [("session", PInt 104); ("client4", PStr "203.0.113.0/24");
   ("routedspoof", PStr "blocked"); ("privatespoof", PStr "received")].

Definition neither : list (string * pyval) :=
  [("session", PInt 105); ("client4", PStr "192.0.2.128/25");
   ("routedspoof", PStr "blocked"); ("privatespoof", PStr "rewritten")].

(** A feed of two pages: three eligible records and a reference to the
    second page, then an empty page without a reference. *)
Definition feed : env :=
  {| net := fun k _ =>
              match k with
              | O => Response (page_of [PDict routed_only; PDict private_only;
                                        PDict neither]
                                 [("hydra:next", PStr "/sessions?page=2")])
              | _ => Response (page_of [] [])
              end;
     clock := clock4;
     now_text := "2024-05-02 09:30:00";
     can_open := fun _ => true |}.

(** A server whose first page holds a record and then a number where a
    record should be. *)
Definition broken : env :=
  {| net := fun _ _ => Response (page_of [PDict both; PInt 7] []);
     clock := clock4;
     now_text := "2024-05-02 09:30:00";
     can_open := fun _ => true |}.

(** A file system on which only "routed.txt" can be opened for writing. *)
Definition locked : env :=
  {| net := fun _ _ => Response (page_of [PDict both] []);
     clock := clock4;
     now_text := "2024-05-02 09:30:00";
     can_open := fun path => (path =? "routed.txt")%string |}.

(** A page of three records with a reference to a second page. *)
Definition first_page : pyval :=
  page_of [PDict routed_only; PDict private_only; PDict neither]
    [("hydra:next", PStr "/sessions?page=2")].

(** A server that answers once, with [first_page], and refuses every
    request after that. *)
Definition cut_off : env :=
  {| net := fun k _ =>
              match k with
              | O => Response first_page
              | _ => RequestError "connection refused"
              end;
     clock := clock4;
     now_text := "2024-05-02 09:30:00";
     can_open := fun _ => true |}.

(** The run on [cut_off] after its first turn. *)
Definition after_first_page : state :=
  snd (process_page cut_off first_page
         (snd (fetch_page cut_off
                 "https://api.spoofer.caida.org/sessions?timestamp[after]=2023-05-03"
                 (at_loop_entry cut_off (fresh cut_off))))).

(** A server that answers with a list of records instead of a page. *)
Definition listing : env :=
  {| net := fun _ _ => Response (PList [PDict both]);
     clock := clock4;
     now_text := "2024-05-02 09:30:00";
     can_open := fun _ => true |}.

End Example.

(** * Properties *)

(** ** The fetcher *)

Lemma range_max_retries : range max_retries = [0; 1; 2].
Proof. reflexivity. Qed.

(** One attempt that fails with retries left: the notice, the sleep, and
    the loop goes on with the delay doubled. *)
Lemma fetch_attempts_error (e : env) (url : string) (attempt : Z) (rest : list Z)
    (delay : Z) (st : state) (msg : string) :
  net e (requests st) url = RequestError msg ->
  attempt < max_retries - 1 ->
  fetch_attempts e url (attempt :: rest) delay st =
    fetch_attempts e url rest (delay * 2)
      (after [Get url; Print (retry_notice msg delay); Sleep delay] 1 st).
Proof.
  intros H Hlt. apply Z.ltb_lt in Hlt.
  cbn [fetch_attempts]. unfold bind at 1. unfold requests_get at 1.
  rewrite H, Hlt.
  unfold bind, print, sleep.
  f_equal. unfold after, log, count_request.
  cbn [self requests ticks trace routed_file private_file].
  f_equal. rewrite <- !app_assoc. reflexivity.
Qed.

(** The last attempt fails: the notice, and [None]. *)
Lemma fetch_attempts_give_up (e : env) (url : string) (attempt : Z) (rest : list Z)
    (delay : Z) (st : state) (msg : string) :
  net e (requests st) url = RequestError msg ->
  max_retries - 1 <= attempt ->
  fetch_attempts e url (attempt :: rest) delay st =
    (Ok PNone, after [Get url; Print (failure_notice msg)] 1 st).
Proof.
  intros H Hge. apply Z.ltb_ge in Hge.
  cbn [fetch_attempts]. unfold bind at 1. unfold requests_get at 1.
  rewrite H, Hge.
  unfold bind, print, ret.
  f_equal. unfold after, log, count_request.
  cbn [self requests ticks trace routed_file private_file].
  f_equal. rewrite <- !app_assoc. reflexivity.
Qed.

(** An attempt that succeeds returns the body. *)
Lemma fetch_attempts_response (e : env) (url : string) (attempt : Z) (rest : list Z)
    (delay : Z) (st : state) (body : pyval) :
  net e (requests st) url = Response body ->
  fetch_attempts e url (attempt :: rest) delay st = (Ok body, after [Get url] 1 st).
Proof.
  intros H.
  cbn [fetch_attempts]. unfold bind at 1. unfold requests_get at 1.
  rewrite H. reflexivity.
Qed.

Lemma after_after (evs1 evs2 : list event) (k1 k2 : nat) (st : state) :
  after evs2 k2 (after evs1 k1 st) = after (evs1 ++ evs2) (k1 + k2) st.
Proof.
  unfold after. cbn [self requests ticks trace routed_file private_file].
  f_equal; [lia | now rewrite app_assoc].
Qed.

(** C3.  When the first two attempts for a URL end in a request error, the
    third attempt decides: if it succeeds, [fetch_page] has made exactly
    three requests, slept 2 after the first failure and 4 after the second,
    and returns the parsed payload; if it fails too, [fetch_page] returns
    [None] after the same three requests and two sleeps, and does not
    raise. *)
Theorem fetch_page_retries (e : env) (url : string) (st : state) (m1 m2 : string) :
  net e (requests st) url = RequestError m1 ->
  net e (S (requests st)) url = RequestError m2 ->
  (forall body, net e (S (S (requests st))) url = Response body ->
     fetch_page e url st =
       (Ok body,
        after [Get url; Print (retry_notice m1 2); Sleep 2;
               Get url; Print (retry_notice m2 4); Sleep 4;
               Get url] 3 st))
  /\
  (forall m3, net e (S (S (requests st))) url = RequestError m3 ->
     fetch_page e url st =
       (Ok PNone,
        after [Get url; Print (retry_notice m1 2); Sleep 2;
               Get url; Print (retry_notice m2 4); Sleep 4;
               Get url; Print (failure_notice m3)] 3 st)).
Proof.
  intros H1 H2.
  assert (E2 : fetch_page e url st =
               fetch_attempts e url [2] 8
                 (after [Get url; Print (retry_notice m1 2); Sleep 2;
                         Get url; Print (retry_notice m2 4); Sleep 4] 2 st)).
  { unfold fetch_page. rewrite range_max_retries.
    rewrite (fetch_attempts_error e url 0 [1; 2] 2 st m1 H1) by (unfold max_retries; lia).
    rewrite (fetch_attempts_error e url 1 [2] (2 * 2) _ m2) by
      (try exact H2; unfold max_retries; lia).
    rewrite after_after. reflexivity. }
  split; intros r H3; rewrite E2.
  - rewrite (fetch_attempts_response e url 2 [] 8 _ r) by exact H3.
    rewrite after_after. reflexivity.
  - rewrite (fetch_attempts_give_up e url 2 [] 8 _ r) by
      (try exact H3; unfold max_retries; lia).
    rewrite after_after. reflexivity.
Qed.

Lemma fetch_page_retries_witness :
  fetch_page (Example.flaky (Response (PDict []))) "https://api/sessions"
    (Example.fresh (Example.flaky (Response (PDict []))))
  = (Ok (PDict []),
     after [Get "https://api/sessions"; Print (retry_notice "timed out" 2); Sleep 2;
            Get "https://api/sessions"; Print (retry_notice "timed out" 4); Sleep 4;
            Get "https://api/sessions"] 3
       (Example.fresh (Example.flaky (Response (PDict [])))))
  /\
  fetch_page (Example.flaky (RequestError "refused")) "https://api/sessions"
    (Example.fresh (Example.flaky (RequestError "refused")))
  = (Ok PNone,
     after [Get "https://api/sessions"; Print (retry_notice "timed out" 2); Sleep 2;
            Get "https://api/sessions"; Print (retry_notice "timed out" 4); Sleep 4;
            Get "https://api/sessions"; Print (failure_notice "refused")] 3
       (Example.fresh (Example.flaky (RequestError "refused")))).
Proof.
  split.
  - apply (proj1 (fetch_page_retries (Example.flaky (Response (PDict [])))
                    "https://api/sessions"
                    (Example.fresh (Example.flaky (Response (PDict []))))
                    "timed out" "timed out" eq_refl eq_refl)).
    reflexivity.
  - apply (proj2 (fetch_page_retries (Example.flaky (RequestError "refused"))
                    "https://api/sessions"
                    (Example.fresh (Example.flaky (RequestError "refused")))
                    "timed out" "timed out" eq_refl eq_refl)).
    reflexivity.
Defined.

(** ** The classifier *)

Lemma get_dict (d : list (string * pyval)) (key : string) :
  Py.get (PDict d) key PNone = Ok (field d key).
Proof. reflexivity. Qed.

Lemma eq_str_received (d : list (string * pyval)) (key : string) :
  Py.eq_str (field d key) "received" = true <-> received d key.
Proof.
  unfold field, received.
  destruct (Py.lookup key d) as [v|]; simpl.
  - destruct v; simpl; try (split; [discriminate | intros [=]]).
    rewrite String.eqb_eq. split; [now intros -> | now intros [= ->]].
  - split; discriminate.
Qed.

(** A record with an address that is a non-empty string is eligible. *)
Lemma eligible_nonempty_string (d : list (string * pyval)) (a : string) :
  Py.lookup "client4" d = Some (PStr a) -> a <> "" -> eligible d = true.
Proof.
  intros H Ha. unfold eligible, field. rewrite H. simpl.
  apply negb_true_iff, String.eqb_neq, Ha.
Qed.

Lemma format_record_dict (d : list (string * pyval)) :
  exists line, format_record (PDict d) = Ok line.
Proof. unfold format_record. simpl. eexists. reflexivity. Qed.

Lemma routed_write_open (text : string) (st : state) :
  status (routed_file st) = IsOpen ->
  routed_write text st =
    (Ok tt, set_routed_file {| status := IsOpen;
                               written := written (routed_file st) ++ [text] |} st).
Proof. intros H. unfold routed_write, write_to. now rewrite H. Qed.

Lemma private_write_open (text : string) (st : state) :
  status (private_file st) = IsOpen ->
  private_write text st =
    (Ok tt, set_private_file {| status := IsOpen;
                                written := written (private_file st) ++ [text] |} st).
Proof. intros H. unfold private_write, write_to. now rewrite H. Qed.

Lemma texts_iff (b : bool) (P : Prop) (x : string) :
  (b = true <-> P) ->
  ((if b then [x] else []) = [x] <-> P) /\ ((if b then [x] else []) = [] <-> ~ P).
Proof.
  intros [H1 H2].
  destruct b; split; split; intros H;
    try discriminate; try reflexivity; try tauto;
    try (apply H2 in H; discriminate);
    try (intros HP; apply H2 in HP; discriminate).
Qed.

(** C4.  A record whose address field is absent, null or the empty string
    is skipped: the classifier returns the counts it was given and leaves
    the whole state, both streams included, as it was, whatever the other
    fields hold. *)
Theorem classify_without_address (d : list (string * pyval)) (counts : Z * Z)
    (st : state) :
  Py.lookup "client4" d = None
  \/ Py.lookup "client4" d = Some PNone
  \/ Py.lookup "client4" d = Some (PStr "") ->
  process_session (PDict d) counts st = (Ok counts, st).
Proof.
  intros H. unfold process_session, bind, lift, ret.
  rewrite get_dict. unfold field.
  destruct H as [-> | [-> | ->]]; reflexivity.
Qed.

Lemma classify_without_address_witness :
  process_session (PDict Example.no_address) (0, 0)
    (Example.running (Example.flaky (Response PNone)))
  = (Ok (0, 0), Example.running (Example.flaky (Response PNone))).
Proof.
  apply (classify_without_address Example.no_address).
  left. reflexivity.
Defined.

(** ** The estimator *)

(** C7.  With fewer than two pages processed the estimator returns the
    placeholder, whatever the clock and the estimate of the total are; it
    does not even read the clock. *)
Theorem estimate_placeholder (e : env) (st : state) :
  pages_processed (self st) < 2 ->
  estimate_completion e st = (Ok "Calculating...", st).
Proof.
  intros H. unfold estimate_completion, bind, get_self, ret.
  apply Z.ltb_lt in H. now rewrite H.
Qed.

Lemma estimate_placeholder_witness :
  estimate_completion (Example.flaky (Response PNone))
    (Example.fresh (Example.flaky (Response PNone)))
  = (Ok "Calculating...", Example.fresh (Example.flaky (Response PNone))).
Proof.
  apply (estimate_placeholder (Example.flaky (Response PNone))).
  cbn. lia.
Defined.

(** The rendering of the time left: the code's [if]/[elif]/[else] is the
    bucket of the specification, rendered. *)
Lemma format_eta_bucket (left : PrimFloat.float) :
  format_eta left = (let? t := bucket left in Ok (render_eta t)).
Proof.
  unfold format_eta, bucket.
  destruct (Flt.lt_int left 60).
  - destruct (Flt.to_int left); reflexivity.
  - destruct (Flt.lt_int left 3600).
    + destruct (Flt.div_int left 60) as [q| |]; try reflexivity.
      cbn [and_then]. destruct (Flt.to_int q); reflexivity.
    + destruct (Flt.div_int left 3600) as [q| |]; try reflexivity.
      cbn [and_then]. destruct (Flt.to_int q) as [h| |]; try reflexivity.
      cbn [and_then]. destruct (Flt.mod_int left 3600) as [r| |]; try reflexivity.
      cbn [and_then]. destruct (Flt.div_int r 60) as [q'| |]; try reflexivity.
      cbn [and_then]. destruct (Flt.to_int q'); reflexivity.
Qed.

(** With two pages or more the estimator reads the clock once and divides
    the elapsed time by the number of pages. *)
Lemma estimate_completion_unfold (e : env) (st : state) :
  2 <= pages_processed (self st) ->
  estimate_completion e st =
    (let c := self st in
     let elapsed_time := PrimFloat.sub (clock e (ticks st)) (start_time c) in
     let? avg := Flt.div_int elapsed_time (pages_processed c) in
     if estimate_known (estimated_total_pages c) then
       match estimated_total_pages c with
       | Some total =>
           let? left := Flt.int_mul (total - pages_processed c) avg in
           format_eta left
       | None => Raise TypeError
       end
     else format_rate avg,
     count_tick st).
Proof.
  intros H. apply Z.ltb_ge in H.
  unfold estimate_completion, bind, get_self, time_time, lift, raise.
  rewrite H. cbn [self count_tick].
  destruct (Flt.div_int _ _) as [avg| |]; try reflexivity.
  cbn [and_then].
  destruct (estimate_known _); try reflexivity.
  destruct (estimated_total_pages (self st)); try reflexivity.
  destruct (Flt.int_mul _ _); reflexivity.
Qed.

(** With a total estimate that is not zero the estimator computes the
    formula and the bucket, and fails where they fail. *)
Lemma estimate_completion_known (e : env) (st : state) (E : Z) :
  2 <= pages_processed (self st) ->
  estimated_total_pages (self st) = Some E ->
  E <> 0 ->
  estimate_completion e st =
    (let P := pages_processed (self st) in
     let T := PrimFloat.sub (clock e (ticks st)) (start_time (self st)) in
     let? left := remaining_time E P T in
     let? t := bucket left in
     Ok (render_eta t),
     count_tick st).
Proof.
  intros HP HE Hnz.
  rewrite (estimate_completion_unfold e st HP).
  cbv zeta. rewrite HE. unfold estimate_known.
  apply Z.eqb_neq in Hnz. rewrite Hnz. cbn [negb].
  unfold remaining_time.
  destruct (Flt.div_int _ _) as [avg| |]; try reflexivity.
  cbn [and_then].
  destruct (Flt.int_mul _ _) as [left| |]; try reflexivity.
  cbn [and_then]. now rewrite format_eta_bucket.
Qed.

(** C6, amended.  With two pages or more processed and a total estimate [E]
    that is not zero, whenever [(E - P) * (T / P)] is computed for the [P]
    pages processed and the time [T] elapsed at the clock reading (no
    integer is too large for a float) and the numbers of its bucket are
    (the value is no infinity and no NaN), the estimator returns the text
    of that value's bucket, seconds under 60, minutes under 3600, hours
    and minutes otherwise, with no clamping of a negative value. *)
Theorem estimate_known_total (e : env) (st : state) (E : Z)
    (left : PrimFloat.float) (t : eta) :
  2 <= pages_processed (self st) ->
  estimated_total_pages (self st) = Some E ->
  E <> 0 ->
  remaining_time E (pages_processed (self st))
    (PrimFloat.sub (clock e (ticks st)) (start_time (self st))) = Ok left ->
  bucket left = Ok t ->
  estimate_completion e st = (Ok (render_eta t), count_tick st).
Proof.
  intros HP HE Hnz Hleft Ht.
  rewrite (estimate_completion_known e st E HP HE Hnz).
  cbv zeta. rewrite Hleft. cbn [and_then]. rewrite Ht. reflexivity.
Qed.

Lemma estimate_known_total_witness :
  estimate_completion Example.steady (Example.midway Example.steady 3 (Some 1))
  = (Ok "-2 seconds", count_tick (Example.midway Example.steady 3 (Some 1))).
Proof.
  apply (estimate_known_total Example.steady
           (Example.midway Example.steady 3 (Some 1)) 1
           (PrimFloat.opp
              (PrimFloat.div (PrimFloat.of_uint63 (Uint63.of_Z 8))
                 (PrimFloat.of_uint63 (Uint63.of_Z 3))))
           (Seconds (-2)));
    [ cbn; lia | reflexivity | discriminate
    | vm_compute; reflexivity | vm_compute; reflexivity ].
Defined.

(** The inputs the amended claim leaves out: an estimate too large for a
    float stops the estimator with an [OverflowError]. *)
Remark estimate_overflow_total :
  fst (estimate_completion Example.steady
         (Example.midway Example.steady 2 (Some (10 ^ 400))))
  = Raise OverflowError.
Proof. vm_compute. reflexivity. Qed.

(** C6, as stated, fails for an estimate of zero pages: the test
    [if self.estimated_total_pages] takes it for no estimate.  After two
    pages and four seconds the claim's value is [(0 - 2) * (4 / 2)], that
    is "-4 seconds", and the estimator answers with the processing rate. *)
Lemma estimate_zero_total_counterexample :
  estimated_total_pages (self (Example.midway Example.steady 2 (Some 0))) = Some 0
  /\ pages_processed (self (Example.midway Example.steady 2 (Some 0))) = 2
  /\ fst (estimate_completion Example.steady (Example.midway Example.steady 2 (Some 0)))
     = Ok "Processing 0.50 pages/second"
  /\ (let? left :=
        remaining_time 0 2
          (PrimFloat.sub (clock Example.steady 1) (clock Example.steady 0)) in
      let? t := bucket left in
      Ok (render_eta t))
     = Ok "-4 seconds".
Proof. vm_compute. repeat split. Qed.

(** ** The formatter *)

(** C9, at the input where it fails: in a record with no field at all the
    six fields read with a default are rendered as "N/A", and the session
    identifier, read without one, as "None". *)
Theorem format_record_no_fields :
  format_record (PDict [])
  = Ok ("Session: https://spoofer.caida.org/report.php?sessionid=None, "
        ++ "ASN4 number: N/A, Client4: N/A, Country: N/A, "
        ++ "Privatespoof: N/A, Routedspoof: N/A, Timestamp: N/A").
Proof. vm_compute. reflexivity. Qed.

(** ** The estimate of the total *)

Lemma filter_head_find {A : Type} (f : A -> bool) (l : list A) :
  match filter f l with [] => None | x :: _ => Some x end = find f l.
Proof.
  induction l as [|a l IH]; [reflexivity|].
  simpl. destruct (f a); [reflexivity | exact IH].
Qed.

Lemma extract_total_pages_first (u : string) :
  extract_total_pages u =
    match first_page_segment u with
    | Some seg =>
        match nth_error (Str.split "=" seg) 1 with
        | Some text => Int.of_str text
        | None => None
        end
    | None => None
    end.
Proof.
  unfold extract_total_pages, first_page_segment.
  rewrite <- filter_head_find.
  destruct (filter _ _); reflexivity.
Qed.

Lemma no_page_number_extract (u : string) :
  no_page_number u -> extract_total_pages u = None.
Proof.
  intros H. rewrite extract_total_pages_first.
  destruct H as [H | seg text H1 H2 H3].
  - now rewrite H.
  - now rewrite H1, H2.
Qed.

(** A page with a string as its "last" reference, met while no estimate is
    stored: the counter advances, and the estimate is what the extraction
    gives.  No exception leaves the function. *)
Lemma update_progress_last (data : pyval) (u : string) (st : state) :
  reference "hydra:last" data = Some (PStr u) ->
  estimated_total_pages (self st) = None ->
  update_progress data st =
    match extract_total_pages u with
    | Some n =>
        (Ok tt,
         log (Print ("Estimated total pages: " ++ Int.to_str n))
           (set_self (set_estimated_total_pages n
                        (add_pages_processed 1 (self st))) st))
    | None => (Ok tt, set_self (add_pages_processed 1 (self st)) st)
    end.
Proof.
  intros Href Hest.
  destruct data as [| | | | |entries]; try discriminate Href.
  unfold reference in Href.
  destruct (Py.lookup "hydra:view" entries) as [view|] eqn:Hview;
    try discriminate Href.
  destruct view as [| | | | |view]; try discriminate Href.
  unfold update_progress, bind, modify_self, get_self, lift.
  cbn [self set_self add_pages_processed estimated_total_pages].
  rewrite Hest. cbn [estimate_known negb Py.contains Py.getitem].
  rewrite Hview. cbn [Py.contains Py.getitem]. rewrite Href.
  destruct (extract_total_pages u); reflexivity.
Qed.

(** A reference that is not a string has no [split]: the [AttributeError]
    is not one of the two classes the [except] clause names, and leaves
    [update_progress]. *)
Remark update_progress_null_last (st : state) :
  estimated_total_pages (self st) = None ->
  fst (update_progress (Example.page_of [] [("hydra:last", PNone)]) st)
  = Raise AttributeError.
Proof.
  intros Hest.
  unfold update_progress, bind, modify_self, get_self, lift.
  cbn [self set_self add_pages_processed estimated_total_pages].
  rewrite Hest. reflexivity.
Qed.

(** With no estimate stored the estimator answers with the processing
    rate. *)
Lemma of_int_one : Flt.of_int 1 = Ok PrimFloat.one.
Proof. vm_compute. reflexivity. Qed.

(** The estimator without a known total, after two pages or more, when
    the average time per page is computed and is not zero: the number of
    pages per second, with two decimals. *)
Lemma estimate_rate (e : env) (st : state) (avg : PrimFloat.float) :
  2 <= pages_processed (self st) ->
  estimate_known (estimated_total_pages (self st)) = false ->
  Flt.div_int (PrimFloat.sub (clock e (ticks st)) (start_time (self st)))
    (pages_processed (self st)) = Ok avg ->
  PrimFloat.eqb avg PrimFloat.zero = false ->
  estimate_completion e st
  = (Ok ("Processing " ++ Flt.fixed2 (PrimFloat.div PrimFloat.one avg)
         ++ " pages/second"),
     count_tick st).
Proof.
  intros HP Hest Havg Hnz.
  rewrite (estimate_completion_unfold e st HP).
  cbv zeta. rewrite Havg, Hest. cbn [and_then].
  unfold format_rate, Flt.int_div. rewrite of_int_one. cbn [and_then].
  rewrite Hnz. reflexivity.
Qed.

(** With a clock that has not advanced since the start the average time
    per page is zero, and the estimator without a known total raises. *)
Remark estimate_still_clock :
  fst (estimate_completion Example.frozen (Example.midway Example.frozen 2 None))
  = Raise ZeroDivisionError.
Proof. vm_compute. reflexivity. Qed.

(** C8, amended.  A page whose "last" reference is a string that gives no
    page number (no segment between "&" starts with "page=", or the text
    between the first and the second "=" of the first such segment is not
    an integer literal) is processed by [update_progress] without an
    exception: the page counter advances and the estimate of the total
    stays unset.  From the state it leaves, once two pages are processed
    and when the average time per page is computed and is not zero, the
    estimator returns the pages-per-second message. *)
Theorem update_progress_malformed_last (e : env) (data : pyval) (u : string)
    (st : state) :
  reference "hydra:last" data = Some (PStr u) ->
  no_page_number u ->
  estimated_total_pages (self st) = None ->
  exists st',
    update_progress data st = (Ok tt, st')
    /\ estimated_total_pages (self st') = None
    /\ pages_processed (self st') = pages_processed (self st) + 1
    /\ st' = set_self (add_pages_processed 1 (self st)) st
    /\ forall avg,
         2 <= pages_processed (self st') ->
         Flt.div_int (PrimFloat.sub (clock e (ticks st')) (start_time (self st')))
           (pages_processed (self st')) = Ok avg ->
         PrimFloat.eqb avg PrimFloat.zero = false ->
         estimate_completion e st'
         = (Ok ("Processing " ++ Flt.fixed2 (PrimFloat.div PrimFloat.one avg)
                ++ " pages/second"),
            count_tick st').
Proof.
  intros Href Hbad Hest.
  exists (set_self (add_pages_processed 1 (self st)) st).
  rewrite (update_progress_last data u st Href Hest).
  rewrite (no_page_number_extract u Hbad).
  repeat split; try assumption.
  intros avg HP Havg Hnz. apply estimate_rate; try assumption.
  cbn [self set_self add_pages_processed estimated_total_pages].
  now rewrite Hest.
Qed.

Lemma update_progress_malformed_last_witness :
  exists st',
    update_progress (Example.page_with_last "/sessions?timestamp[after]=2023-05-03&page=last")
      (Example.midway Example.steady 1 None) = (Ok tt, st')
    /\ estimated_total_pages (self st') = None
    /\ estimate_completion Example.steady st'
       = (Ok "Processing 0.50 pages/second", count_tick st').
Proof.
  destruct (update_progress_malformed_last Example.steady
              (Example.page_with_last "/sessions?timestamp[after]=2023-05-03&page=last")
              "/sessions?timestamp[after]=2023-05-03&page=last"
              (Example.midway Example.steady 1 None))
    as (st' & Hrun & Hest & _ & Hst & Heta).
  - reflexivity.
  - apply (value_not_integer _ "page=last" "last"); reflexivity.
  - reflexivity.
  - exists st'. split; [exact Hrun|]. split; [exact Hest|].
    rewrite (Heta (PrimFloat.of_uint63 (Uint63.of_Z 2))).
    + reflexivity.
    + rewrite Hst. cbn. lia.
    + rewrite Hst. vm_compute. reflexivity.
    + reflexivity.
Defined.

(** C8, as stated, fails in two ways.  A reference that is not a string
    cannot be parsed at all, and for it [.split] raises an
    [AttributeError], which the [except] clause does not name: the
    progress update raises.  And a page value that is no number, as "5=7"
    in [page=5=7], does not leave the estimate unset: the text up to the
    second "=" is read, and 5 is stored. *)
Lemma malformed_last_counterexample :
  (reference "hydra:last" Example.page_null_last = Some PNone
   /\ fst (update_progress Example.page_null_last
             (Example.midway Example.steady 1 None))
      = Raise AttributeError)
  /\ (first_page_segment "/sessions?timestamp[after]=2023-05-03&page=5=7"
      = Some "page=5=7"
      /\ Int.of_str "5=7" = None
      /\ estimated_total_pages
           (self (snd (update_progress
                         (Example.page_with_last
                            "/sessions?timestamp[after]=2023-05-03&page=5=7")
                         (Example.midway Example.steady 1 None))))
         = Some 5).
Proof. vm_compute. repeat split. Qed.

(** ** Splitting a URL *)

Lemma ascii_eqb_sym (a b : ascii) : Ascii.eqb a b = Ascii.eqb b a.
Proof.
  destruct (Ascii.eqb_spec a b) as [->|Hab].
  - now rewrite Ascii.eqb_refl.
  - symmetry. apply Ascii.eqb_neq. congruence.
Qed.

Lemma mem_append (c : ascii) (s1 s2 : string) :
  Str.mem c (s1 ++ s2) = Str.mem c s1 || Str.mem c s2.
Proof.
  induction s1 as [|d s1 IH]; [reflexivity|].
  simpl. now rewrite IH, orb_assoc.
Qed.

(** A string without the separator is a single segment. *)
Lemma split_without (c : ascii) (s : string) :
  Str.mem c s = false -> Str.split c s = [s].
Proof.
  induction s as [|d s IH]; [reflexivity|].
  simpl. intros H. apply orb_false_iff in H as [Hd Hs].
  rewrite ascii_eqb_sym, Hd, (IH Hs). reflexivity.
Qed.

(** The first separator ends the first segment. *)
Lemma split_append (c : ascii) (s1 s2 : string) :
  Str.mem c s1 = false ->
  Str.split c (s1 ++ String c s2) = s1 :: Str.split c s2.
Proof.
  induction s1 as [|d s1 IH]; simpl; intros H.
  - now rewrite Ascii.eqb_refl.
  - apply orb_false_iff in H as [Hd Hs].
    rewrite ascii_eqb_sym, Hd, (IH Hs). reflexivity.
Qed.

(** Splitting undoes joining, for parts that do not hold the separator. *)
Lemma split_join (c : ascii) (first : string) (others : list string) :
  Forall (fun p => Str.mem c p = false) (first :: others) ->
  Str.split c (Str.join (String c "") (first :: others)) = first :: others.
Proof.
  revert first. induction others as [|p others IH]; intros first H.
  - apply split_without. now inversion H.
  - inversion H as [|? ? Hfirst Hrest]; subst.
    change (Str.join (String c "") (first :: p :: others))
      with (first ++ String c (Str.join (String c "") (p :: others))).
    rewrite (split_append c _ _ Hfirst), (IH p Hrest). reflexivity.
Qed.

Lemma append_assoc (a b c : string) : (a ++ b) ++ c = a ++ (b ++ c).
Proof. induction a as [|x a IH]; simpl; [reflexivity | now rewrite IH]. Qed.

(** The segments of [base?p1&p2&...]: the base stays with the first
    parameter. *)
Lemma query_url_join (base first : string) (others : list string) :
  query_url base (first :: others)
  = Str.join "&" ((base ++ "?" ++ first) :: others).
Proof.
  unfold query_url, Str.join.
  destruct others as [|p others]; [reflexivity|].
  cbn [String.concat]. now rewrite !append_assoc.
Qed.

(** A base that does not start with "page=" still does not once the query
    is put after it: the "?" cannot stand for a character of "page=". *)
Lemma startswith_base (base rest : string) :
  Str.startswith base "page=" = false ->
  Str.startswith (base ++ "?" ++ rest) "page=" = false.
Proof.
  destruct base as [|c1 [|c2 [|c3 [|c4 [|c5 base]]]]];
    cbn [Str.startswith String.append]; intros H;
    repeat match goal with
           | |- context [Ascii.eqb ?a "?"%char] =>
               change (Ascii.eqb a "?"%char) with false
           end;
    cbn [andb]; rewrite ?andb_false_r; try reflexivity; exact H.
Qed.

Lemma find_none {A : Type} (f : A -> bool) (l : list A) :
  Forall (fun x => f x = false) l -> find f l = None.
Proof.
  induction 1 as [|x l Hx _ IH]; [reflexivity|].
  simpl. now rewrite Hx.
Qed.

(** In [base?page=N&p2&...] no segment between "&" starts with "page=". *)
Lemma first_page_segment_query (base value : string) (others : list string) :
  Str.mem "&" base = false ->
  Str.startswith base "page=" = false ->
  Str.mem "&" value = false ->
  Forall (fun p => Str.mem "&" p = false /\ Str.startswith p "page=" = false) others ->
  first_page_segment (query_url base (("page=" ++ value) :: others)) = None.
Proof.
  intros Hbase Hstart Hvalue Hothers.
  unfold first_page_segment.
  rewrite query_url_join, split_join.
  - apply find_none. constructor.
    + apply startswith_base, Hstart.
    + eapply Forall_impl; [|exact Hothers]. now intros p [_ Hp].
  - constructor.
    + rewrite !mem_append, Hbase. cbn. exact Hvalue.
    + eapply Forall_impl; [|exact Hothers]. now intros p [Hp _].
Qed.

(** Whatever the page, an estimate is stored only from a "last" reference
    that is a string with a segment starting with "page=" between its
    "&". *)
Lemma estimate_stored_from_segment (data : pyval) (st : state) (n : Z) :
  estimated_total_pages (self st) = None ->
  estimated_total_pages (self (snd (update_progress data st))) = Some n ->
  exists u seg,
    reference "hydra:last" data = Some (PStr u)
    /\ In seg (Str.split "&" u)
    /\ Str.startswith seg "page=" = true.
Proof.
  intros Hest Hn.
  assert (Hnone : estimated_total_pages
                    (self (set_self (add_pages_processed 1 (self st)) st)) = None)
    by exact Hest.
  unfold update_progress, bind, modify_self, get_self, lift, raise, ret, print in Hn.
  cbn [self set_self add_pages_processed estimated_total_pages] in Hn.
  rewrite Hest in Hn. cbn [estimate_known negb] in Hn.
  destruct data as [|b|k|s|items|entries]; cbn [Py.contains] in Hn;
    try (cbn [snd] in Hn; congruence).
  - destruct (Str.contains s "hydra:view"); cbn [snd Py.getitem] in Hn; congruence.
  - destruct (existsb _ items); cbn [snd Py.getitem] in Hn; congruence.
  - unfold reference.
    destruct (Py.lookup "hydra:view" entries) as [view|] eqn:Hview;
      cbn [snd Py.getitem] in Hn; [|congruence].
    rewrite Hview in Hn.
    destruct view as [|b|k|s|items|view]; cbn [Py.contains snd] in Hn;
      try congruence.
    + destruct (Str.contains s "hydra:last"); cbn [snd Py.getitem] in Hn; congruence.
    + destruct (existsb _ items); cbn [snd Py.getitem] in Hn; congruence.
    + destruct (Py.lookup "hydra:last" view) as [last|] eqn:Hlast;
        cbn [snd Py.getitem] in Hn; [|congruence].
      rewrite Hlast in Hn.
      destruct last as [|b|k|u|items|d]; cbn [snd] in Hn; try congruence.
      rewrite extract_total_pages_first in Hn.
      unfold first_page_segment in Hn.
      destruct (find _ _) as [seg|] eqn:Hfind; [|cbn [snd] in Hn; congruence].
      exists u, seg. apply find_some in Hfind. now split.
Qed.



(** ** The driver *)

(** [fetch_page] touches neither the collector, nor the clock, nor the
    streams; it makes requests, and it returns or raises. *)
Lemma fetch_attempts_frame (e : env) (url : string) (attempts : list Z) :
  forall (delay : Z) (st st' : state) (r : result pyval),
    fetch_attempts e url attempts delay st = (r, st') ->
    frame st st' /\ (requests st <= requests st')%nat /\ r <> OutOfFuel.
Proof.
  induction attempts as [|attempt rest IH]; intros delay st st' r H.
  - cbn in H. injection H as <- <-.
    unfold frame. repeat split; try reflexivity; try lia; congruence.
  - cbn [fetch_attempts] in H. unfold bind at 1 in H.
    unfold requests_get at 1 in H.
    destruct (net e (requests st) url) as [body|msg|x].
    + cbn in H. injection H as <- <-.
      unfold frame. cbn. repeat split; try reflexivity; try lia; congruence.
    + destruct (attempt <? max_retries - 1)%Z.
      * unfold bind, print, sleep in H.
        apply IH in H. destruct H as ((H1 & H2 & H3 & H4) & H5 & H6).
        unfold log, count_request in *.
        unfold frame. cbn in *. repeat split; try assumption. lia.
      * cbn in H. injection H as <- <-.
        unfold frame. cbn. repeat split; try reflexivity; try lia; congruence.
    + cbn in H. injection H as <- <-.
      unfold frame. cbn. repeat split; try reflexivity; try lia; congruence.
Qed.

Lemma fetch_page_frame (e : env) (url : string) (st st' : state) (r : result pyval) :
  fetch_page e url st = (r, st') -> frame st st'.
Proof. intros H. now apply fetch_attempts_frame in H. Qed.

Lemma fetch_attempts_requests (e : env) (url : string) (attempt : Z)
    (rest : list Z) (delay : Z) (st : state) :
  (requests st < requests (snd (fetch_attempts e url (attempt :: rest) delay st)))%nat.
Proof.
  destruct (fetch_attempts e url (attempt :: rest) delay st) as [r st'] eqn:H.
  cbn [fetch_attempts] in H. unfold bind at 1 in H.
  unfold requests_get at 1 in H.
  destruct (net e (requests st) url) as [body|msg|x].
  - cbn in H. injection H as <- <-. cbn. lia.
  - destruct (attempt <? max_retries - 1)%Z.
    + unfold bind, print, sleep in H.
      apply fetch_attempts_frame in H. destruct H as (_ & H & _).
      unfold log, count_request in H. cbn in *. lia.
    + cbn in H. injection H as <- <-. cbn. lia.
  - cbn in H. injection H as <- <-. cbn. lia.
Qed.

Lemma fetch_page_requests (e : env) (url : string) (st : state) :
  (requests st < requests (snd (fetch_page e url st)))%nat.
Proof.
  unfold fetch_page. rewrite range_max_retries. apply fetch_attempts_requests.
Qed.

(** The loop stops, without an exception, when the fetcher gives nothing. *)
Lemma collect_loop_failed_fetch (e : env) (fuel : nat) (next data : pyval)
    (st st1 : state) :
  Py.truthy next = true ->
  fetch_page e (api_base (self st) ++ Py.str next) st = (Ok data, st1) ->
  Py.truthy data = false ->
  collect_loop (S fuel) e next st = (Ok tt, log stop_notice st1).
Proof.
  intros Hnext Hfetch Hdata.
  cbn [collect_loop]. rewrite Hnext.
  unfold bind at 1. unfold get_self at 1.
  unfold bind at 1. rewrite Hfetch, Hdata. reflexivity.
Qed.

Lemma timedelta_str_in_range (seconds : Z) :
  timedelta_range seconds -> exists text, timedelta_str seconds = Ok text.
Proof.
  unfold timedelta_range, timedelta_str. intros H.
  apply Z.ltb_ge in H. rewrite H. eexists. reflexivity.
Qed.

(** The summary, when the clock reading gives a running time that
    [timedelta] can hold. *)
Lemma print_summary_ok (e : env) (st : state) (seconds : Z) (total_time : string) :
  Flt.to_int (PrimFloat.sub (clock e (ticks st)) (start_time (self st))) = Ok seconds ->
  timedelta_str seconds = Ok total_time ->
  print_summary e st = (Ok tt, count_tick (after (summary (self st) total_time) 0 st)).
Proof.
  intros Hint Htd.
  unfold print_summary, bind, get_self, time_time, print, lift.
  cbn [self ticks count_tick log]. rewrite Hint, Htd.
  unfold after, count_tick, log, summary.
  cbn [self requests ticks trace routed_file private_file Nat.add].
  repeat rewrite <- app_assoc. reflexivity.
Qed.

(** *** Requests are only ever added *)

Lemma mono_bind {A B : Type} (c : M A) (k : A -> M B) :
  mono c -> (forall a, mono (k a)) -> mono (bind c k).
Proof.
  intros Hc Hk st. unfold bind.
  specialize (Hc st). destruct (c st) as [[a|x|] st']; cbn in *; try assumption.
  specialize (Hk a st'). lia.
Qed.

Lemma mono_ret {A : Type} (a : A) : mono (ret a).
Proof. intros st. cbn. lia. Qed.

Lemma mono_lift {A : Type} (r : result A) : mono (lift r).
Proof. intros st. cbn. lia. Qed.

Lemma mono_raise {A : Type} (x : exn) : mono (@raise A x).
Proof. intros st. cbn. lia. Qed.

Lemma mono_out_of_fuel {A : Type} : mono (@out_of_fuel A).
Proof. intros st. cbn. lia. Qed.

Lemma mono_get_self : mono get_self.
Proof. intros st. cbn. lia. Qed.

Lemma mono_modify_self (f : collector -> collector) : mono (modify_self f).
Proof. intros st. cbn. lia. Qed.

Lemma mono_print (line : string) : mono (print line).
Proof. intros st. cbn. lia. Qed.

Lemma mono_stdout_write (text : string) : mono (stdout_write text).
Proof. intros st. cbn. lia. Qed.

Lemma mono_stdout_flush : mono stdout_flush.
Proof. intros st. cbn. lia. Qed.

Lemma mono_time_time (e : env) : mono (time_time e).
Proof. intros st. cbn. lia. Qed.

Lemma mono_routed_write (text : string) : mono (routed_write text).
Proof.
  intros st. unfold routed_write. destruct (write_to _ _); cbn; lia.
Qed.

Lemma mono_private_write (text : string) : mono (private_write text).
Proof.
  intros st. unfold private_write. destruct (write_to _ _); cbn; lia.
Qed.

Lemma mono_fetch_page (e : env) (url : string) : mono (fetch_page e url).
Proof.
  intros st. pose proof (fetch_page_requests e url st). lia.
Qed.

Create HintDb mono.

#[local] Hint Resolve mono_ret mono_lift mono_raise mono_out_of_fuel mono_get_self
  mono_modify_self mono_print mono_stdout_write mono_stdout_flush mono_time_time
  mono_routed_write mono_private_write mono_fetch_page : mono.

(** Goes through a computation written with [bind], [if] and [match]. *)
Ltac mono_steps :=
  repeat first
    [ solve [auto with mono]
    | apply mono_bind; [|intro]
    | match goal with
      | |- mono (if ?b then _ else _) => destruct b
      | |- mono (match ?x with _ => _ end) => destruct x
      end ].

Lemma mono_for_each {A B : Type} (body : A -> B -> M B) (items : list A) :
  (forall x acc, mono (body x acc)) -> forall acc, mono (for_each body items acc).
Proof.
  intros Hbody. induction items as [|x items IH]; intros acc; cbn [for_each].
  - apply mono_ret.
  - apply mono_bind; [apply Hbody | exact IH].
Qed.

Lemma mono_process_session (session : pyval) (counts : Z * Z) :
  mono (process_session session counts).
Proof. unfold process_session. mono_steps. Qed.

Lemma mono_process_data (data : pyval) : mono (process_data data).
Proof.
  unfold process_data. mono_steps.
  apply mono_for_each. intros. apply mono_process_session.
Qed.

Lemma mono_estimate_completion (e : env) : mono (estimate_completion e).
Proof. unfold estimate_completion. mono_steps. Qed.

Lemma mono_update_progress (data : pyval) : mono (update_progress data).
Proof. unfold update_progress. mono_steps. Qed.

Lemma mono_display_progress (e : env) : mono (display_progress e).
Proof.
  unfold display_progress.
  apply mono_bind; [apply mono_estimate_completion | intro]. mono_steps.
Qed.

Lemma mono_next_reference (data : pyval) : mono (next_reference data).
Proof. unfold next_reference. mono_steps. Qed.

Lemma mono_process_page (e : env) (data : pyval) : mono (process_page e data).
Proof.
  unfold process_page.
  apply mono_bind; [apply mono_update_progress | intro].
  apply mono_bind; [apply mono_process_data | intro].
  apply mono_bind; [apply mono_lift | intro].
  apply mono_bind; [apply mono_lift | intro].
  apply mono_bind; [apply mono_modify_self | intro].
  apply mono_bind; [apply mono_display_progress | intro].
  apply mono_next_reference.
Qed.

Lemma mono_collect_loop (fuel : nat) (e : env) :
  forall next, mono (collect_loop fuel e next).
Proof.
  induction fuel as [|fuel IH]; intros next; cbn [collect_loop];
    destruct (Py.truthy next); try apply mono_ret; try apply mono_out_of_fuel.
  apply mono_bind; [apply mono_get_self | intro c].
  apply mono_bind; [apply mono_fetch_page | intro data].
  destruct (negb (Py.truthy data)); [apply mono_print|].
  apply mono_bind; [apply mono_process_page | exact IH].
Qed.

(** *** The continuation reference *)

Lemma bind_inv {A B : Type} (c : M A) (k : A -> M B) (st st2 : state) (b : B) :
  bind c k st = (Ok b, st2) ->
  exists a st1, c st = (Ok a, st1) /\ k a st1 = (Ok b, st2).
Proof.
  unfold bind. destruct (c st) as [[a|x|] st1]; intros H; try discriminate H.
  now exists a, st1.
Qed.

Lemma lift_inv {A : Type} (r : result A) (st st1 : state) (a : A) :
  lift r st = (Ok a, st1) -> r = Ok a /\ st1 = st.
Proof. unfold lift. intros [= -> ->]. now split. Qed.

(** A page that was processed is a dictionary, and what the turn hands to
    the loop test is what [next_reference] returned. *)
Lemma process_page_inv (e : env) (data next : pyval) (st1 st2 : state) :
  process_page e data st1 = (Ok next, st2) ->
  (exists entries, data = PDict entries)
  /\ exists st, next_reference data st = (Ok next, st2).
Proof.
  unfold process_page. intros H.
  apply bind_inv in H as (_ & sa & _ & H).
  apply bind_inv in H as (counts & sb & _ & H).
  apply bind_inv in H as (members & sc & Hget & H).
  apply bind_inv in H as (records & sd & _ & H).
  apply bind_inv in H as (_ & se & _ & H).
  apply bind_inv in H as (_ & sf & _ & H).
  split; [|now exists sf].
  apply lift_inv in Hget as [Hget _].
  destruct data; try discriminate Hget. now eexists.
Qed.

(** On a dictionary, [next_reference] returns the reference when the page
    has one and [None] otherwise; it raises when "hydra:view" is something
    else than a dictionary and holds "hydra:next". *)
Lemma next_reference_dict (entries : list (string * pyval)) (next : pyval)
    (st st2 : state) :
  next_reference (PDict entries) st = (Ok next, st2) ->
  next = match reference "hydra:next" (PDict entries) with
         | Some v => v
         | None => PNone
         end.
Proof.
  unfold next_reference, reference, bind, lift, modify_self, ret.
  cbn [Py.contains Py.getitem].
  destruct (Py.lookup "hydra:view" entries) as [view|]; [|now intros [= <- _]].
  destruct view as [| | | s | items | view]; cbn [Py.contains Py.getitem];
    try discriminate.
  - destruct (Str.contains s "hydra:next"); [discriminate | now intros [= <- _]].
  - destruct (existsb _ items); [discriminate | now intros [= <- _]].
  - destruct (Py.lookup "hydra:next" view); now intros [= <- _].
Qed.

Lemma collect_loop_stops (fuel : nat) (e : env) (next : pyval) (st : state) :
  Py.truthy next = false -> collect_loop fuel e next st = (Ok tt, st).
Proof. intros H. destruct fuel; cbn [collect_loop]; now rewrite H. Qed.

Lemma collect_loop_fetches (fuel : nat) (e : env) (next : pyval) (st : state) :
  Py.truthy next = true ->
  (requests st < requests (snd (collect_loop (S fuel) e next st)))%nat.
Proof.
  intros H. cbn [collect_loop]. rewrite H.
  unfold bind at 1. unfold get_self at 1.
  pose proof (fetch_page_requests e (api_base (self st) ++ Py.str next) st) as Hlt.
  unfold bind at 1.
  destruct (fetch_page e (api_base (self st) ++ Py.str next) st)
    as [[data|x|] st1]; cbn [snd] in *; try assumption.
  assert (Hmono : mono (if negb (Py.truthy data)
                        then print (LF ++ "Failed to fetch data. Stopping.")
                        else next_url' <- process_page e data ;;
                             collect_loop fuel e next_url')).
  { destruct (negb (Py.truthy data)); [apply mono_print|].
    apply mono_bind; [apply mono_process_page | apply mono_collect_loop]. }
  specialize (Hmono st1). lia.
Qed.




(** ** Whole runs *)

(** The two-page feed: one line after the header in each file, three
    records seen, one match of each kind, two requests, and the run
    returns with both streams closed. *)
Theorem collect_data_two_pages :
  let run := collect_data 5 Example.feed (Example.fresh Example.feed) in
  fst run = Ok tt
  /\ status (routed_file (snd run)) = IsClosed
  /\ status (private_file (snd run)) = IsClosed
  /\ (exists line,
        format_record (PDict Example.routed_only) = Ok line
        /\ written (routed_file (snd run))
           = [file_header Example.feed (self (Example.fresh Example.feed)); line ++ LF])
  /\ (exists line,
        format_record (PDict Example.private_only) = Ok line
        /\ written (private_file (snd run))
           = [file_header Example.feed (self (Example.fresh Example.feed)); line ++ LF])
  /\ total_records (self (snd run)) = 3
  /\ total_routed (self (snd run)) = 1
  /\ total_private (self (snd run)) = 1
  /\ requests (snd run) = 2%nat.
Proof.
  cbv zeta.
  repeat split; try (vm_compute; reflexivity);
    eexists; split; vm_compute; reflexivity.
Qed.

(** With the server down from the start the run makes its three attempts,
    stops, leaves the header alone in both files, closes them and prints
    the summary. *)
Theorem collect_data_server_down :
  let run := collect_data 5 Example.down (Example.fresh Example.down) in
  fst run = Ok tt
  /\ routed_file (snd run)
     = {| status := IsClosed;
          written := [file_header Example.down (self (Example.fresh Example.down))] |}
  /\ private_file (snd run)
     = {| status := IsClosed;
          written := [file_header Example.down (self (Example.fresh Example.down))] |}
  /\ requests (snd run) = 3%nat
  /\ exists before,
       trace (snd run)
       = (before ++ stop_notice
            :: summary (self (Example.fresh Example.down)) "0:00:04")%list.
Proof.
  cbv zeta.
  repeat split; try (vm_compute; reflexivity).
  eexists (_ :: _ :: _ :: _ :: _ :: _ :: _ :: _ :: _ :: []).
  vm_compute. reflexivity.
Qed.

(** X14.  The estimate is stored only from a reference that has a segment
    starting with "page=" between its "&". *)
Theorem estimate_needs_page_segment (data : pyval) (u : string) (st : state) (n : Z) :
  reference "hydra:last" data = Some (PStr u) ->
  estimated_total_pages (self st) = None ->
  estimated_total_pages (self (snd (update_progress data st))) = Some n ->
  exists seg, In seg (Str.split "&" u) /\ Str.startswith seg "page=" = true.
Proof.
  intros Href Hest Hn.
  rewrite (update_progress_last data u st Href Hest) in Hn.
  rewrite extract_total_pages_first in Hn.
  unfold first_page_segment in Hn.
  destruct (find _ _) as [seg|] eqn:Hfind.
  - exists seg. now apply find_some in Hfind.
  - cbn in Hn. congruence.
Qed.

Lemma estimate_needs_page_segment_witness :
  exists seg,
    In seg (Str.split "&" "/sessions?timestamp[after]=2023-05-03&page=57")
    /\ Str.startswith seg "page=" = true.
Proof.
  apply (estimate_needs_page_segment
           (Example.page_with_last "/sessions?timestamp[after]=2023-05-03&page=57")
           "/sessions?timestamp[after]=2023-05-03&page=57"
           (Example.midway Example.steady 1 None) 57);
    vm_compute; reflexivity.
Defined.

(** An estimate below the number of pages processed gives a negative
    number of seconds, printed as it is. *)
Theorem estimate_not_clamped :
  fst (estimate_completion Example.steady (Example.midway Example.steady 3 (Some 1)))
  = Ok "-2 seconds".
Proof. vm_compute. reflexivity. Qed.

(** * More on the fetcher *)

Lemma fetch_attempts_other (e : env) (url : string) (attempt : Z) (rest : list Z)
    (delay : Z) (st : state) (x : exn) :
  net e (requests st) url = OtherError x ->
  fetch_attempts e url (attempt :: rest) delay st = (Raise x, after [Get url] 1 st).
Proof.
  intros H.
  cbn [fetch_attempts]. unfold bind at 1. unfold requests_get at 1.
  rewrite H. reflexivity.
Qed.

(** The seven ways a call can go, by what the network answers to the
    first, second and third attempt. *)
Lemma fetch_page_cases (e : env) (url : string) (st : state) :
  (exists b, net e (requests st) url = Response b
             /\ fetch_page e url st = (Ok b, after [Get url] 1 st))
  \/ (exists x, net e (requests st) url = OtherError x
                /\ fetch_page e url st = (Raise x, after [Get url] 1 st))
  \/ (exists m1, net e (requests st) url = RequestError m1
      /\ ((exists b, net e (S (requests st)) url = Response b
                     /\ fetch_page e url st
                        = (Ok b, after [Get url; Print (retry_notice m1 2); Sleep 2;
                                        Get url] 2 st))
          \/ (exists x, net e (S (requests st)) url = OtherError x
                        /\ fetch_page e url st
                           = (Raise x, after [Get url; Print (retry_notice m1 2);
                                              Sleep 2; Get url] 2 st))
          \/ (exists m2, net e (S (requests st)) url = RequestError m2
              /\ ((exists b, net e (S (S (requests st))) url = Response b
                             /\ fetch_page e url st
                                = (Ok b, after [Get url; Print (retry_notice m1 2);
                                                Sleep 2; Get url;
                                                Print (retry_notice m2 4); Sleep 4;
                                                Get url] 3 st))
                  \/ (exists x, net e (S (S (requests st))) url = OtherError x
                                /\ fetch_page e url st
                                   = (Raise x, after [Get url; Print (retry_notice m1 2);
                                                      Sleep 2; Get url;
                                                      Print (retry_notice m2 4); Sleep 4;
                                                      Get url] 3 st))
                  \/ (exists m3, net e (S (S (requests st))) url = RequestError m3
                                 /\ fetch_page e url st
                                    = (Ok PNone,
                                       after [Get url; Print (retry_notice m1 2);
                                              Sleep 2; Get url;
                                              Print (retry_notice m2 4); Sleep 4;
                                              Get url; Print (failure_notice m3)] 3 st)))))).
Proof.
  unfold fetch_page. rewrite range_max_retries.
  destruct (net e (requests st) url) as [b|m1|x] eqn:H0.
  - left. exists b. split; [reflexivity|]. now apply fetch_attempts_response.
  - right. right. exists m1. split; [reflexivity|].
    rewrite (fetch_attempts_error e url 0 [1; 2] 2 st m1 H0)
      by (unfold max_retries; lia).
    destruct (net e (S (requests st)) url) as [b|m2|x] eqn:H1.
    + left. exists b. split; [reflexivity|].
      rewrite (fetch_attempts_response e url 1 [2] (2 * 2) _ b) by exact H1.
      now rewrite after_after.
    + right. right. exists m2. split; [reflexivity|].
      rewrite (fetch_attempts_error e url 1 [2] (2 * 2) _ m2)
        by (try exact H1; unfold max_retries; lia).
      rewrite after_after.
      destruct (net e (S (S (requests st))) url) as [b|m3|x] eqn:H2.
      * left. exists b. split; [reflexivity|].
        rewrite (fetch_attempts_response e url 2 [] (2 * 2 * 2) _ b) by exact H2.
        now rewrite after_after.
      * right. right. exists m3. split; [reflexivity|].
        rewrite (fetch_attempts_give_up e url 2 [] (2 * 2 * 2) _ m3)
          by (try exact H2; unfold max_retries; lia).
        now rewrite after_after.
      * right. left. exists x. split; [reflexivity|].
        rewrite (fetch_attempts_other e url 2 [] (2 * 2 * 2) _ x) by exact H2.
        now rewrite after_after.
    + right. left. exists x. split; [reflexivity|].
      rewrite (fetch_attempts_other e url 1 [2] (2 * 2) _ x) by exact H1.
      now rewrite after_after.
  - right. left. exists x. split; [reflexivity|]. now apply fetch_attempts_other.
Qed.

(** X1.  Whatever the network does, one call of [fetch_page] makes between
    one and three requests, all to the URL it was given, and sleeps once
    before each retry: the delays are the first [k - 1] of 2 and 4 for [k]
    requests.  It changes nothing of the collector, the clock or the
    streams. *)
Theorem fetch_page_effects (e : env) (url : string) (st : state) :
  exists (k : nat) (evs : list event),
    snd (fetch_page e url st) = after evs k st
    /\ (1 <= k <= 3)%nat
    /\ gets evs = repeat url k
    /\ sleeps evs = firstn (k - 1) [2; 4].
Proof.
  destruct (fetch_page_cases e url st)
    as [(b & _ & H) | [(x & _ & H) | (m1 & _ & [(b & _ & H) | [(x & _ & H)
       | (m2 & _ & [(b & _ & H) | [(x & _ & H) | (m3 & _ & H)]])]])]];
    rewrite H; cbn [snd]; do 2 eexists;
    (split; [reflexivity|]); repeat split; cbn; lia.
Qed.

(** X2.  What [fetch_page] returns is what the network answered: a payload
    is the body of the first attempt (of at most three) that did not end
    in a request error; [None] is also returned after three request
    errors; and an exception of another class at some attempt leaves
    [fetch_page] at once, after request errors only. *)
Theorem fetch_page_result (e : env) (url : string) (st st' : state)
    (r : result pyval) :
  fetch_page e url st = (r, st') ->
  match r with
  | Ok body =>
      (exists k, (k < 3)%nat
                 /\ net e (k + requests st) url = Response body
                 /\ requests st' = S (k + requests st)
                 /\ forall j, (j < k)%nat ->
                      exists m, net e (j + requests st) url = RequestError m)
      \/ (body = PNone
          /\ requests st' = (3 + requests st)%nat
          /\ forall j, (j < 3)%nat ->
               exists m, net e (j + requests st) url = RequestError m)
  | Raise x =>
      exists k, (k < 3)%nat
                /\ net e (k + requests st) url = OtherError x
                /\ requests st' = S (k + requests st)
                /\ forall j, (j < k)%nat ->
                     exists m, net e (j + requests st) url = RequestError m
  | OutOfFuel => False
  end.
Proof.
  intros Hrun.
  destruct (fetch_page_cases e url st)
    as [(b & H0 & H) | [(x & H0 & H) | (m1 & H0 & [(b & H1 & H) | [(x & H1 & H)
       | (m2 & H1 & [(b & H2 & H) | [(x & H2 & H) | (m3 & H2 & H)]])]])]];
    rewrite H in Hrun; injection Hrun as <- <-.
  - left. exists 0%nat. repeat split; try assumption; try lia.
  - exists 0%nat. repeat split; try assumption; try lia.
  - left. exists 1%nat. repeat split; try assumption; try lia.
    intros j Hj. assert (j = 0)%nat as -> by lia. now exists m1.
  - exists 1%nat. repeat split; try assumption; try lia.
    intros j Hj. assert (j = 0)%nat as -> by lia. now exists m1.
  - left. exists 2%nat. repeat split; try assumption; try lia.
    intros j Hj. destruct j as [|[|j]]; [now exists m1 | now exists m2 | lia].
  - exists 2%nat. repeat split; try assumption; try lia.
    intros j Hj. destruct j as [|[|j]]; [now exists m1 | now exists m2 | lia].
  - right. repeat split.
    intros j Hj.
    destruct j as [|[|[|j]]];
      [now exists m1 | now exists m2 | now exists m3 | lia].
Qed.

Lemma fetch_page_result_witness :
  (exists k, (k < 3)%nat
             /\ net (Example.flaky (Response (PDict [])))
                  (k + requests (Example.fresh (Example.flaky (Response (PDict [])))))
                  "https://api/sessions" = Response (PDict [])
             /\ requests (snd (fetch_page (Example.flaky (Response (PDict [])))
                                 "https://api/sessions"
                                 (Example.fresh (Example.flaky (Response (PDict []))))))
                = S (k + requests (Example.fresh (Example.flaky (Response (PDict [])))))
             /\ forall j, (j < k)%nat ->
                  exists m,
                    net (Example.flaky (Response (PDict [])))
                      (j + requests (Example.fresh (Example.flaky (Response (PDict [])))))
                      "https://api/sessions" = RequestError m)
  \/ (PDict [] = PNone
      /\ requests (snd (fetch_page (Example.flaky (Response (PDict [])))
                          "https://api/sessions"
                          (Example.fresh (Example.flaky (Response (PDict []))))))
         = (3 + requests (Example.fresh (Example.flaky (Response (PDict [])))))%nat
      /\ forall j, (j < 3)%nat ->
           exists m,
             net (Example.flaky (Response (PDict [])))
               (j + requests (Example.fresh (Example.flaky (Response (PDict [])))))
               "https://api/sessions" = RequestError m).
Proof.
  apply (fetch_page_result (Example.flaky (Response (PDict [])))
           "https://api/sessions"
           (Example.fresh (Example.flaky (Response (PDict []))))
           (snd (fetch_page (Example.flaky (Response (PDict [])))
                   "https://api/sessions"
                   (Example.fresh (Example.flaky (Response (PDict []))))))
           (Ok (PDict []))).
  vm_compute. reflexivity.
Defined.

(** * What a computation leaves alone *)

Lemma grows_refl (f : stream) : grows f f.
Proof. exists []. split; [reflexivity | now rewrite app_nil_r]. Qed.

Lemma grows_trans (f g h : stream) : grows f g -> grows g h -> grows f h.
Proof.
  intros (t1 & S1 & W1) (t2 & S2 & W2). exists (t1 ++ t2)%list. split.
  - congruence.
  - rewrite W2, W1. now rewrite app_assoc.
Qed.

Lemma advances_refl (st : state) : advances st st.
Proof.
  unfold advances. repeat split; try lia; try apply grows_refl.
  exists []. now rewrite app_nil_r.
Qed.

Lemma advances_trans (a b c : state) : advances a b -> advances b c -> advances a c.
Proof.
  intros (R1 & T1 & (e1 & E1) & F1 & G1) (R2 & T2 & (e2 & E2) & F2 & G2).
  unfold advances. repeat split; try lia.
  - exists (e1 ++ e2)%list. rewrite E2, E1. now rewrite app_assoc.
  - eapply grows_trans; eassumption.
  - eapply grows_trans; eassumption.
Qed.

Lemma advances_log (ev : event) (st : state) : advances st (log ev st).
Proof.
  unfold advances. cbn. repeat split; try lia; try apply grows_refl.
  now exists [ev].
Qed.

Lemma steady_bind {A B : Type} (c : M A) (k : A -> M B) :
  steady c -> (forall a, steady (k a)) -> steady (bind c k).
Proof.
  intros Hc Hk st. unfold bind.
  specialize (Hc st). destruct (c st) as [[a|x|] st']; cbn [snd] in *;
    try assumption.
  eapply advances_trans; [exact Hc | apply Hk].
Qed.

Lemma steady_ret {A : Type} (a : A) : steady (ret a).
Proof. intros st. apply advances_refl. Qed.

Lemma steady_lift {A : Type} (r : result A) : steady (lift r).
Proof. intros st. apply advances_refl. Qed.

Lemma steady_raise {A : Type} (x : exn) : steady (@raise A x).
Proof. intros st. apply advances_refl. Qed.

Lemma steady_out_of_fuel {A : Type} : steady (@out_of_fuel A).
Proof. intros st. apply advances_refl. Qed.

Lemma steady_get_self : steady get_self.
Proof. intros st. apply advances_refl. Qed.

Lemma steady_modify_self (f : collector -> collector) : steady (modify_self f).
Proof.
  intros st. unfold advances. cbn. repeat split; try lia; try apply grows_refl.
  exists []. now rewrite app_nil_r.
Qed.

Lemma steady_print (line : string) : steady (print line).
Proof. intros st. apply advances_log. Qed.

Lemma steady_stdout_write (text : string) : steady (stdout_write text).
Proof. intros st. apply advances_log. Qed.

Lemma steady_stdout_flush : steady stdout_flush.
Proof. intros st. apply advances_log. Qed.

Lemma steady_sleep (seconds : Z) : steady (sleep seconds).
Proof. intros st. apply advances_log. Qed.

Lemma steady_time_time (e : env) : steady (time_time e).
Proof.
  intros st. unfold advances. cbn. repeat split; try lia; try apply grows_refl.
  exists []. now rewrite app_nil_r.
Qed.

Lemma steady_requests_get (e : env) (url : string) : steady (requests_get e url).
Proof.
  intros st. unfold advances. cbn. repeat split; try lia; try apply grows_refl.
  now exists [Get url].
Qed.

Lemma steady_routed_write (text : string) : steady (routed_write text).
Proof.
  intros st. unfold routed_write, write_to.
  destruct (status (routed_file st)) eqn:Hs; cbn [snd]; try apply advances_refl.
  unfold advances. cbn. repeat split; try lia; try apply grows_refl.
  - exists []. now rewrite app_nil_r.
  - exists [text]. split; [now rewrite Hs | reflexivity].
Qed.

Lemma steady_private_write (text : string) : steady (private_write text).
Proof.
  intros st. unfold private_write, write_to.
  destruct (status (private_file st)) eqn:Hs; cbn [snd]; try apply advances_refl.
  unfold advances. cbn. repeat split; try lia; try apply grows_refl.
  - exists []. now rewrite app_nil_r.
  - exists [text]. split; [now rewrite Hs | reflexivity].
Qed.

Create HintDb steady.

#[local] Hint Resolve steady_ret steady_lift steady_raise steady_out_of_fuel
  steady_get_self steady_modify_self steady_print steady_stdout_write
  steady_stdout_flush steady_sleep steady_time_time steady_requests_get
  steady_routed_write steady_private_write : steady.

Ltac steady_steps :=
  repeat first
    [ solve [auto with steady]
    | apply steady_bind; [|intro]
    | match goal with
      | |- steady (if ?b then _ else _) => destruct b
      | |- steady (match ?x with _ => _ end) => destruct x
      end ].

Lemma steady_fetch_attempts (e : env) (url : string) (attempts : list Z) :
  forall delay, steady (fetch_attempts e url attempts delay).
Proof.
  induction attempts as [|attempt rest IH]; intros delay; cbn [fetch_attempts].
  - apply steady_ret.
  - apply steady_bind; [apply steady_requests_get | intros o].
    destruct o as [b|m|x]; [apply steady_ret | | apply steady_raise].
    destruct (attempt <? max_retries - 1)%Z.
    + apply steady_bind; [apply steady_print | intro].
      apply steady_bind; [apply steady_sleep | intro]. apply IH.
    + steady_steps.
Qed.

Lemma steady_fetch_page (e : env) (url : string) : steady (fetch_page e url).
Proof. apply steady_fetch_attempts. Qed.

Lemma steady_for_each {A B : Type} (body : A -> B -> M B) (items : list A) :
  (forall x acc, steady (body x acc)) -> forall acc, steady (for_each body items acc).
Proof.
  intros Hbody. induction items as [|x items IH]; intros acc; cbn [for_each].
  - apply steady_ret.
  - apply steady_bind; [apply Hbody | exact IH].
Qed.

Lemma steady_process_session (session : pyval) (counts : Z * Z) :
  steady (process_session session counts).
Proof. unfold process_session. steady_steps. Qed.

Lemma steady_process_data (data : pyval) : steady (process_data data).
Proof.
  unfold process_data. steady_steps.
  apply steady_for_each. intros. apply steady_process_session.
Qed.

Lemma steady_estimate_completion (e : env) : steady (estimate_completion e).
Proof. unfold estimate_completion. steady_steps. Qed.

Lemma steady_update_progress (data : pyval) : steady (update_progress data).
Proof. unfold update_progress. steady_steps. Qed.

Lemma steady_display_progress (e : env) : steady (display_progress e).
Proof.
  unfold display_progress.
  apply steady_bind; [apply steady_estimate_completion | intro]. steady_steps.
Qed.

Lemma steady_next_reference (data : pyval) : steady (next_reference data).
Proof. unfold next_reference. steady_steps. Qed.

Lemma steady_process_page (e : env) (data : pyval) : steady (process_page e data).
Proof.
  unfold process_page.
  apply steady_bind; [apply steady_update_progress | intro].
  apply steady_bind; [apply steady_process_data | intro].
  apply steady_bind; [apply steady_lift | intro].
  apply steady_bind; [apply steady_lift | intro].
  apply steady_bind; [apply steady_modify_self | intro].
  apply steady_bind; [apply steady_display_progress | intro].
  apply steady_next_reference.
Qed.

Lemma steady_collect_loop (fuel : nat) (e : env) :
  forall next, steady (collect_loop fuel e next).
Proof.
  induction fuel as [|fuel IH]; intros next; cbn [collect_loop];
    destruct (Py.truthy next); try apply steady_ret; try apply steady_out_of_fuel.
  apply steady_bind; [apply steady_get_self | intro c].
  apply steady_bind; [apply steady_fetch_page | intro data].
  destruct (negb (Py.truthy data)); [apply steady_print|].
  apply steady_bind; [apply steady_process_page | exact IH].
Qed.

(** * A page of records *)

Lemma appended_trans (f g h : stream) (t1 t2 : list string) :
  appended f g t1 -> appended g h t2 -> appended f h (t1 ++ t2).
Proof.
  intros [S1 W1] [S2 W2]. split; [congruence|].
  rewrite W2, W1. now rewrite app_assoc.
Qed.

Lemma appended_nil (f : stream) : appended f f [].
Proof. split; [reflexivity | now rewrite app_nil_r]. Qed.

Lemma same_but_files_refl (st : state) : same_but_files st st.
Proof. unfold same_but_files. tauto. Qed.

Lemma same_but_files_trans (a b c : state) :
  same_but_files a b -> same_but_files b c -> same_but_files a c.
Proof.
  unfold same_but_files. intros (A1 & A2 & A3 & A4) (B1 & B2 & B3 & B4).
  repeat split; congruence.
Qed.

Lemma record_line_format (d : list (string * pyval)) :
  exists line, format_record (PDict d) = Ok line /\ record_line d = line ++ LF.
Proof.
  destruct (format_record_dict d) as [line H]. exists line.
  unfold record_line. now rewrite H.
Qed.

Lemma texts_cons (key : string) (d : list (string * pyval))
    (ds : list (list (string * pyval))) :
  map record_line (filter (fun d => eligible d && is_received d key) (d :: ds))
  = ((if eligible d && is_received d key then [record_line d] else [])
     ++ map record_line (filter (fun d => eligible d && is_received d key) ds))%list.
Proof. cbn [filter]. now destruct (eligible d && is_received d key). Qed.

Lemma routed_texts_cons (d : list (string * pyval))
    (ds : list (list (string * pyval))) :
  routed_texts (d :: ds) = (routed_texts [d] ++ routed_texts ds)%list.
Proof.
  unfold routed_texts. rewrite !texts_cons. cbn [filter map].
  now rewrite app_nil_r.
Qed.

Lemma private_texts_cons (d : list (string * pyval))
    (ds : list (list (string * pyval))) :
  private_texts (d :: ds) = (private_texts [d] ++ private_texts ds)%list.
Proof.
  unfold private_texts. rewrite !texts_cons. cbn [filter map].
  now rewrite app_nil_r.
Qed.

(** One record, with both streams open: the texts it adds are those of the
    one-record list. *)
Lemma process_session_record (d : list (string * pyval)) (rc pc : Z) (st : state) :
  status (routed_file st) = IsOpen ->
  status (private_file st) = IsOpen ->
  exists st',
    process_session (PDict d) (rc, pc) st
    = (Ok (rc + Z.of_nat (List.length (routed_texts [d])),
           pc + Z.of_nat (List.length (private_texts [d]))), st')
    /\ appended (routed_file st) (routed_file st') (routed_texts [d])
    /\ appended (private_file st) (private_file st') (private_texts [d])
    /\ same_but_files st st'.
Proof.
  intros Hr Hp.
  destruct (record_line_format d) as (line & Hline & Hrec).
  unfold routed_texts, private_texts. rewrite !texts_cons.
  cbn [filter map]. rewrite !app_nil_r.
  unfold process_session, bind, lift, ret.
  rewrite !get_dict. fold (eligible d).
  fold (is_received d "routedspoof"). fold (is_received d "privatespoof").
  destruct (eligible d); cbn [andb].
  - rewrite Hline, Hrec.
    destruct (is_received d "routedspoof");
      destruct (is_received d "privatespoof");
      try rewrite (routed_write_open _ _ Hr);
      try rewrite private_write_open by exact Hp;
      cbn [fst snd List.length Z.of_nat]; rewrite ?Z.add_0_r;
      (eexists; split; [reflexivity|]);
      unfold appended, same_but_files;
      cbn [set_routed_file set_private_file self requests ticks trace
           routed_file private_file status written];
      rewrite ?Hr, ?Hp, ?app_nil_r; tauto.
  - cbn [List.length Z.of_nat]. rewrite !Z.add_0_r.
    exists st. split; [reflexivity|].
    repeat split; try apply appended_nil; reflexivity.
Qed.

(** The loop over a list of records. *)
Lemma process_records (ds : list (list (string * pyval))) :
  forall (rc pc : Z) (st : state),
    status (routed_file st) = IsOpen ->
    status (private_file st) = IsOpen ->
    exists st',
      for_each process_session (map PDict ds) (rc, pc) st
      = (Ok (rc + Z.of_nat (List.length (routed_texts ds)),
             pc + Z.of_nat (List.length (private_texts ds))), st')
      /\ appended (routed_file st) (routed_file st') (routed_texts ds)
      /\ appended (private_file st) (private_file st') (private_texts ds)
      /\ same_but_files st st'.
Proof.
  induction ds as [|d ds IH]; intros rc pc st Hr Hp.
  - exists st. cbn. rewrite !Z.add_0_r.
    repeat split; try apply appended_nil; reflexivity.
  - destruct (process_session_record d rc pc st Hr Hp)
      as (st1 & Hrun & Ha & Hb & Hsame).
    cbn [map for_each]. unfold bind at 1. rewrite Hrun.
    destruct (IH (rc + Z.of_nat (List.length (routed_texts [d])))
                 (pc + Z.of_nat (List.length (private_texts [d]))) st1)
      as (st2 & Hrun2 & Ha2 & Hb2 & Hsame2).
    { destruct Ha as [-> _]. exact Hr. }
    { destruct Hb as [-> _]. exact Hp. }
    exists st2. rewrite Hrun2.
    rewrite (routed_texts_cons d ds), (private_texts_cons d ds).
    rewrite !length_app, !Nat2Z.inj_add.
    split; [f_equal; f_equal; f_equal; lia|].
    split; [eapply appended_trans; eassumption|].
    split; [eapply appended_trans; eassumption|].
    eapply same_but_files_trans; eassumption.
Qed.

(** X3.  For a page whose members are records (the member list is taken
    as [d.get] gives it, so a page without the key has none), with both
    streams open, [process_data] adds to each stream the lines of the
    eligible records that match it, in the order of the page, returns the
    two numbers of lines it added, and changes nothing else. *)
Theorem process_data_records (data : pyval) (ds : list (list (string * pyval)))
    (st : state) :
  Py.get data "hydra:member" (PList []) = Ok (PList (map PDict ds)) ->
  status (routed_file st) = IsOpen ->
  status (private_file st) = IsOpen ->
  exists st',
    process_data data st
    = (Ok (Z.of_nat (List.length (routed_texts ds)),
           Z.of_nat (List.length (private_texts ds))), st')
    /\ appended (routed_file st) (routed_file st') (routed_texts ds)
    /\ appended (private_file st) (private_file st') (private_texts ds)
    /\ same_but_files st st'.
Proof.
  intros Hget Hr Hp.
  destruct (process_records ds 0 0 st Hr Hp) as (st' & Hrun & H).
  exists st'. split; [|exact H].
  unfold process_data, bind, lift. rewrite Hget. cbn [Py.iter]. exact Hrun.
Qed.

Lemma process_data_records_witness :
  exists st',
    process_data (Example.page_of [PDict Example.routed_only; PDict Example.no_address;
                                   PDict Example.both] [])
      (Example.running Example.steady)
    = (Ok (Z.of_nat (List.length (routed_texts [Example.routed_only; Example.no_address;
                                                Example.both])),
           Z.of_nat (List.length (private_texts [Example.routed_only; Example.no_address;
                                                 Example.both]))), st')
    /\ appended (routed_file (Example.running Example.steady)) (routed_file st')
         (routed_texts [Example.routed_only; Example.no_address; Example.both])
    /\ appended (private_file (Example.running Example.steady)) (private_file st')
         (private_texts [Example.routed_only; Example.no_address; Example.both])
    /\ same_but_files (Example.running Example.steady) st'.
Proof.
  apply (process_data_records
           (Example.page_of [PDict Example.routed_only; PDict Example.no_address;
                             PDict Example.both] [])
           [Example.routed_only; Example.no_address; Example.both]
           (Example.running Example.steady));
    reflexivity.
Defined.

Lemma for_each_app {A B : Type} (body : A -> B -> M B) (l1 l2 : list A) (acc : B)
    (st : state) :
  for_each body (l1 ++ l2) acc st
  = bind (for_each body l1 acc) (fun acc' => for_each body l2 acc') st.
Proof.
  revert acc st. induction l1 as [|x l1 IH]; intros acc st; [reflexivity|].
  cbn [app for_each]. unfold bind.
  destruct (body x acc st) as [[acc'|e|] st1]; try reflexivity.
  rewrite IH. reflexivity.
Qed.

(** X4.  A member that is not a record stops [process_data] with an
    [AttributeError]; the lines of the records before it have been written
    and stay written, and the members after it are not looked at. *)
Theorem process_data_bad_member (data bad : pyval)
    (ds : list (list (string * pyval))) (rest : list pyval) (st : state) :
  Py.get data "hydra:member" (PList []) = Ok (PList (map PDict ds ++ bad :: rest)) ->
  (forall d, bad <> PDict d) ->
  status (routed_file st) = IsOpen ->
  status (private_file st) = IsOpen ->
  exists st',
    process_data data st = (Raise AttributeError, st')
    /\ appended (routed_file st) (routed_file st') (routed_texts ds)
    /\ appended (private_file st) (private_file st') (private_texts ds)
    /\ same_but_files st st'.
Proof.
  intros Hget Hbad Hr Hp.
  destruct (process_records ds 0 0 st Hr Hp) as (st' & Hrun & H).
  exists st'. split; [|exact H].
  unfold process_data, bind, lift. rewrite Hget. cbn [Py.iter].
  rewrite for_each_app. unfold bind at 1. rewrite Hrun.
  cbn [for_each]. unfold bind at 1.
  unfold process_session at 1. unfold bind at 1. unfold lift at 1.
  destruct bad as [| | | | |d]; try reflexivity.
  now destruct (Hbad d).
Qed.

Lemma process_data_bad_member_witness :
  exists st',
    process_data (Example.page_of [PDict Example.both; PStr "oops"; PDict Example.both] [])
      (Example.running Example.steady)
    = (Raise AttributeError, st')
    /\ appended (routed_file (Example.running Example.steady)) (routed_file st')
         (routed_texts [Example.both])
    /\ appended (private_file (Example.running Example.steady)) (private_file st')
         (private_texts [Example.both])
    /\ same_but_files (Example.running Example.steady) st'.
Proof.
  apply (process_data_bad_member
           (Example.page_of [PDict Example.both; PStr "oops"; PDict Example.both] [])
           (PStr "oops") [Example.both] [PDict Example.both]
           (Example.running Example.steady));
    try reflexivity.
  intros d. discriminate.
Defined.

(** * What the progress functions leave alone *)

Lemma keeps_totals_refl (st : state) : keeps_totals st st.
Proof. unfold keeps_totals. tauto. Qed.

Lemma keeps_totals_trans (a b c : state) :
  keeps_totals a b -> keeps_totals b c -> keeps_totals a c.
Proof.
  unfold keeps_totals.
  intros (A1 & A2 & A3 & A4 & A5 & A6 & A7) (B1 & B2 & B3 & B4 & B5 & B6 & B7).
  repeat split; congruence.
Qed.

Lemma tidy_bind {A B : Type} (c : M A) (k : A -> M B) :
  tidy c -> (forall a, tidy (k a)) -> tidy (bind c k).
Proof.
  intros Hc Hk st. unfold bind.
  specialize (Hc st). destruct (c st) as [[a|x|] st']; cbn [snd] in *;
    try assumption.
  eapply keeps_totals_trans; [exact Hc | apply Hk].
Qed.

Lemma tidy_ret {A : Type} (a : A) : tidy (ret a).
Proof. intros st. apply keeps_totals_refl. Qed.

Lemma tidy_lift {A : Type} (r : result A) : tidy (lift r).
Proof. intros st. apply keeps_totals_refl. Qed.

Lemma tidy_raise {A : Type} (x : exn) : tidy (@raise A x).
Proof. intros st. apply keeps_totals_refl. Qed.

Lemma tidy_get_self : tidy get_self.
Proof. intros st. apply keeps_totals_refl. Qed.

Lemma tidy_print (line : string) : tidy (print line).
Proof. intros st. unfold keeps_totals. cbn. tauto. Qed.

Lemma tidy_stdout_write (text : string) : tidy (stdout_write text).
Proof. intros st. unfold keeps_totals. cbn. tauto. Qed.

Lemma tidy_stdout_flush : tidy stdout_flush.
Proof. intros st. unfold keeps_totals. cbn. tauto. Qed.

Lemma tidy_time_time (e : env) : tidy (time_time e).
Proof. intros st. unfold keeps_totals. cbn. tauto. Qed.

Lemma tidy_add_pages_processed (k : Z) : tidy (modify_self (add_pages_processed k)).
Proof. intros st. unfold keeps_totals. cbn. tauto. Qed.

Lemma tidy_set_estimated_total_pages (n : Z) :
  tidy (modify_self (set_estimated_total_pages n)).
Proof. intros st. unfold keeps_totals. cbn. tauto. Qed.

Lemma tidy_add_page (k : Z) : tidy (modify_self (add_page k)).
Proof. intros st. unfold keeps_totals. cbn. tauto. Qed.

Create HintDb tidy.

#[local] Hint Resolve tidy_ret tidy_lift tidy_raise tidy_get_self tidy_print
  tidy_stdout_write tidy_stdout_flush tidy_time_time tidy_add_pages_processed
  tidy_set_estimated_total_pages tidy_add_page : tidy.

Ltac tidy_steps :=
  repeat first
    [ solve [auto with tidy]
    | apply tidy_bind; [|intro]
    | match goal with
      | |- tidy (if ?b then _ else _) => destruct b
      | |- tidy (match ?x with _ => _ end) => destruct x
      end ].

Lemma tidy_estimate_completion (e : env) : tidy (estimate_completion e).
Proof. unfold estimate_completion. tidy_steps. Qed.

Lemma tidy_update_progress (data : pyval) : tidy (update_progress data).
Proof. unfold update_progress. tidy_steps. Qed.

Lemma tidy_display_progress (e : env) : tidy (display_progress e).
Proof.
  unfold display_progress.
  apply tidy_bind; [apply tidy_estimate_completion | intro]. tidy_steps.
Qed.

Lemma tidy_next_reference (data : pyval) : tidy (next_reference data).
Proof. unfold next_reference. tidy_steps. Qed.

Lemma tidy_print_summary (e : env) : tidy (print_summary e).
Proof. unfold print_summary. tidy_steps. Qed.

(** The estimator reads the clock at most once and does nothing else. *)
Lemma estimate_completion_state (e : env) (st : state) :
  snd (estimate_completion e st) = st \/ snd (estimate_completion e st) = count_tick st.
Proof.
  unfold estimate_completion, bind, get_self, time_time, lift, raise, ret.
  destruct (pages_processed (self st) <? 2)%Z; [now left|]. right.
  cbn [self count_tick].
  destruct (Flt.div_int _ _) as [avg| |]; try reflexivity.
  destruct (estimate_known _); [|reflexivity].
  destruct (estimated_total_pages (self st)); try reflexivity.
  destruct (Flt.int_mul _ _); reflexivity.
Qed.

Lemma display_progress_state (e : env) (st : state) :
  exists base,
    (base = st \/ base = count_tick st)
    /\ (snd (display_progress e st) = base
        \/ exists text,
             snd (display_progress e st)
             = log StdoutFlush
                 (log (StdoutWrite text) (log (StdoutWrite clear_line) base))).
Proof.
  pose proof (estimate_completion_state e st) as Hst.
  unfold display_progress, bind, get_self, stdout_write, stdout_flush.
  destruct (estimate_completion e st) as [[eta|x|] st1]; cbn [snd] in *;
    exists st1; (split; [exact Hst|]);
    try (now left).
  right. eexists. reflexivity.
Qed.


(** * The totals and the files *)

Lemma accounted_refl (st : state) : accounted st st.
Proof. unfold accounted. repeat split; lia. Qed.

Lemma accounted_trans (a b c : state) :
  accounted a b -> accounted b c -> accounted a c.
Proof.
  unfold accounted.
  intros (A1 & A2 & A3 & A4 & A5 & A6) (B1 & B2 & B3 & B4 & B5 & B6).
  repeat split; try congruence; lia.
Qed.

Lemma keeps_totals_accounted (st st' : state) :
  keeps_totals st st' -> accounted st st'.
Proof.
  unfold keeps_totals, accounted, texts_in.
  intros (-> & -> & _ & _ & -> & -> & ->). repeat split; lia.
Qed.

Lemma frame_accounted (st st' : state) : frame st st' -> accounted st st'.
Proof.
  unfold frame, accounted, texts_in.
  intros (-> & _ & -> & ->). repeat split; lia.
Qed.

Lemma process_session_ok_record (session : pyval) (counts counts' : Z * Z)
    (st st' : state) :
  process_session session counts st = (Ok counts', st') ->
  exists d, session = PDict d.
Proof.
  destruct session as [| | | | |d]; try discriminate. intros _. now exists d.
Qed.

(** A loop over the members that returned went through records only. *)
Lemma for_each_ok_records (sessions : list pyval) :
  forall (counts counts' : Z * Z) (st st' : state),
    for_each process_session sessions counts st = (Ok counts', st') ->
    exists ds, sessions = map PDict ds.
Proof.
  induction sessions as [|s sessions IH]; intros counts counts' st st' H.
  - now exists [].
  - cbn [for_each] in H. apply bind_inv in H as (c1 & s1 & H1 & H2).
    apply process_session_ok_record in H1 as [d ->].
    apply IH in H2 as [ds ->]. now exists (d :: ds).
Qed.

Lemma chars_length (s : string) : List.length (Str.chars s) = String.length s.
Proof. induction s as [|c s IH]; cbn; congruence. Qed.

Lemma iter_len (members : pyval) (sessions : list pyval) :
  Py.iter members = Ok sessions ->
  Py.len members = Ok (Z.of_nat (List.length sessions)).
Proof.
  destruct members as [| | |s|items|entries]; try discriminate;
    cbn [Py.iter Py.len]; intros [= <-].
  - now rewrite length_map, chars_length.
  - reflexivity.
  - now rewrite length_map.
Qed.

Lemma texts_length_le (key : string) (ds : list (list (string * pyval))) :
  (List.length (map record_line
                  (filter (fun d => eligible d && is_received d key) ds))
   <= List.length ds)%nat.
Proof. rewrite length_map. apply filter_length_le. Qed.

(** One turn of the loop that returns keeps the accounts. *)
Lemma process_page_accounted (e : env) (data next : pyval) (st1 st2 : state) :
  process_page e data st1 = (Ok next, st2) ->
  status (routed_file st1) = IsOpen ->
  status (private_file st1) = IsOpen ->
  accounted st1 st2.
Proof.
  unfold process_page. intros H Hr Hp.
  apply bind_inv in H as (u & sa & Hup & H).
  apply bind_inv in H as (counts & sb & Hdata & H).
  apply bind_inv in H as (members & sc & Hget & H).
  apply bind_inv in H as (records & sd & Hlen & H).
  apply bind_inv in H as (u' & se & Hmod & H).
  apply bind_inv in H as (u'' & sf & Hshow & Hnext).
  pose proof (tidy_update_progress data st1) as Ka. rewrite Hup in Ka.
  pose proof (tidy_display_progress e se) as Kf. rewrite Hshow in Kf.
  pose proof (tidy_next_reference data sf) as Kn. rewrite Hnext in Kn.
  cbn [snd] in Ka, Kf, Kn.
  apply lift_inv in Hget as [Hget ->].
  apply lift_inv in Hlen as [Hlen ->].
  unfold modify_self in Hmod. injection Hmod as Hse.
  unfold process_data in Hdata.
  apply bind_inv in Hdata as (members' & sa' & Hget' & Hdata).
  apply lift_inv in Hget' as [Hget' ->].
  apply bind_inv in Hdata as (sessions & sa'' & Hiter & Hdata).
  apply lift_inv in Hiter as [Hiter ->].
  rewrite Hget in Hget'. injection Hget' as <-.
  rewrite (iter_len _ _ Hiter) in Hlen. injection Hlen as <-.
  destruct (for_each_ok_records _ _ _ _ _ Hdata) as [ds ->].
  assert (Hra : status (routed_file sa) = IsOpen).
  { destruct Ka as (-> & _). exact Hr. }
  assert (Hpa : status (private_file sa) = IsOpen).
  { destruct Ka as (_ & -> & _). exact Hp. }
  destruct (process_records ds 0 0 sa Hra Hpa)
    as (sb' & Hrun & (Sr & Wr) & (Sp & Wp) & (Hself & _)).
  rewrite Hrun in Hdata. injection Hdata as <- <-.
  pose proof (texts_length_le "routedspoof" ds) as Lr.
  pose proof (texts_length_le "privatespoof" ds) as Lp.
  fold (routed_texts ds) in Lr. fold (private_texts ds) in Lp.
  rewrite length_map in *.
  eapply accounted_trans; [apply keeps_totals_accounted; exact Ka|].
  eapply accounted_trans;
    [|eapply accounted_trans;
      [apply keeps_totals_accounted; exact Kf
      |apply keeps_totals_accounted; exact Kn]].
  subst se. unfold accounted, texts_in.
  cbn [self set_self routed_file private_file add_totals total_records
       total_routed total_private fst snd].
  rewrite Hself, Wr, Wp, Sr, Sp, !length_app, !Nat2Z.inj_add.
  repeat split; lia.
Qed.

(** The loop that returns keeps the accounts, however many pages it went
    through and whether it ended on a page without a reference or on a
    failed fetch. *)
Lemma collect_loop_accounted (fuel : nat) (e : env) :
  forall (next : pyval) (st st' : state),
    collect_loop fuel e next st = (Ok tt, st') ->
    status (routed_file st) = IsOpen ->
    status (private_file st) = IsOpen ->
    accounted st st'.
Proof.
  induction fuel as [|fuel IH]; intros next st st' H Hr Hp;
    cbn [collect_loop] in H; destruct (Py.truthy next);
    try discriminate H;
    try (injection H as <-; apply accounted_refl).
  apply bind_inv in H as (c & s0 & Hc & H).
  unfold get_self in Hc. injection Hc as <- <-.
  apply bind_inv in H as (data & s1 & Hfetch & H).
  pose proof (fetch_page_frame e _ _ _ _ Hfetch) as Hframe.
  eapply accounted_trans; [apply frame_accounted; exact Hframe|].
  destruct Hframe as (_ & _ & Hrf & Hpf).
  destruct (negb (Py.truthy data)).
  - unfold print in H. injection H as <-.
    apply keeps_totals_accounted. apply (tidy_print _ s1).
  - apply bind_inv in H as (next' & s2 & Hpage & H).
    assert (Hacc : accounted s1 s2).
    { apply (process_page_accounted e data next' s1 s2 Hpage); congruence. }
    eapply accounted_trans; [exact Hacc|].
    destruct Hacc as (Sr & Sp & _).
    apply (IH next' s2 st' H); congruence.
Qed.

(** [collect_data], when both files can be opened: the loop is run from
    its entry state, the streams are closed, and the summary follows when
    the loop returned. *)
Lemma collect_data_opened (fuel : nat) (e : env) (st : state) :
  can_open e (routed_output (self st)) = true ->
  can_open e (private_output (self st)) = true ->
  collect_data fuel e st
  = bind (closing (collect_loop fuel e
                     (PStr ("/sessions?timestamp[after]=" ++ start_date (self st)))))
      (fun _ => print_summary e)
      (at_loop_entry e st).
Proof.
  intros Hr Hp.
  unfold collect_data, bind, get_self, print, with_output_files, closing.
  cbn [self log]. rewrite Hr, Hp.
  unfold routed_write, private_write, write_to, opened, at_loop_entry.
  reflexivity.
Qed.

Lemma collect_data_not_opened (fuel : nat) (e : env) (st : state) :
  can_open e (routed_output (self st)) && can_open e (private_output (self st)) = false ->
  fst (collect_data fuel e st) = Raise OSError
  /\ requests (snd (collect_data fuel e st)) = requests st
  /\ self (snd (collect_data fuel e st)) = self st
  /\ trace (snd (collect_data fuel e st))
     = (trace st ++ [Print ("Starting data collection from " ++ start_date (self st)
                            ++ " to present...")])%list.
Proof.
  intros H.
  unfold collect_data, bind, get_self, print, with_output_files.
  cbn [self log].
  destruct (can_open e (routed_output (self st))); cbn [andb] in H.
  - rewrite H. repeat split.
  - repeat split.
Qed.

Lemma closing_inv (body : M unit) (st st' : state) :
  closing body st = (Ok tt, st') ->
  exists s, body st = (Ok tt, s)
            /\ st' = set_routed_file (close (routed_file s))
                       (set_private_file (close (private_file s)) s).
Proof.
  unfold closing. destruct (body st) as [[[]|x|] s]; intros H; try discriminate H.
  injection H as <-. exists s. split; reflexivity.
Qed.

(** X6.  Whenever both files can be opened and the run ends, with the
    summary or with an exception raised inside the loop, both streams are
    closed and the first text of each is the header; nothing precedes it
    and nothing written after it is lost. *)
Theorem collect_data_closes_files (fuel : nat) (e : env) (st : state) :
  can_open e (routed_output (self st)) = true ->
  can_open e (private_output (self st)) = true ->
  fst (collect_data fuel e st) <> OutOfFuel ->
  status (routed_file (snd (collect_data fuel e st))) = IsClosed
  /\ status (private_file (snd (collect_data fuel e st))) = IsClosed
  /\ (exists texts, written (routed_file (snd (collect_data fuel e st)))
                    = file_header e (self st) :: texts)
  /\ (exists texts, written (private_file (snd (collect_data fuel e st)))
                    = file_header e (self st) :: texts).
Proof.
  intros Hr Hp Hend.
  rewrite (collect_data_opened fuel e st Hr Hp) in *.
  pose proof (steady_collect_loop fuel e
                (PStr ("/sessions?timestamp[after]=" ++ start_date (self st)))
                (at_loop_entry e st)) as Hadv.
  unfold bind, closing in *.
  destruct (collect_loop fuel e _ (at_loop_entry e st)) as [r sL].
  cbn [snd] in Hadv.
  destruct Hadv as (_ & _ & _ & (tr & _ & Wr) & (tp & _ & Wp)).
  cbn [at_loop_entry routed_file private_file set_routed_file set_private_file
       written log] in Wr, Wp.
  destruct r as [[]|x|].
  - pose proof (tidy_print_summary e
                  (set_routed_file (close (routed_file sL))
                     (set_private_file (close (private_file sL)) sL))) as Hk.
    destruct Hk as (Kr & Kp & _).
    rewrite Kr, Kp.
    cbn [routed_file private_file set_routed_file set_private_file close
         status written].
    rewrite Wr, Wp. repeat split; eexists; reflexivity.
  - cbn [fst snd routed_file private_file set_routed_file set_private_file close
         status written].
    rewrite Wr, Wp. repeat split; eexists; reflexivity.
  - exfalso. apply Hend. reflexivity.
Qed.

(** X7.  After a run that ends with the summary, each file holds the header
    and one text for every match the run added to the total reported for
    it, and neither total of matches grew by more than the total of
    records. *)
Theorem collect_data_totals (fuel : nat) (e : env) (st st' : state) :
  collect_data fuel e st = (Ok tt, st') ->
  texts_in (routed_file st') = 1 + (total_routed (self st') - total_routed (self st))
  /\ texts_in (private_file st')
     = 1 + (total_private (self st') - total_private (self st))
  /\ 0 <= total_routed (self st') - total_routed (self st)
       <= total_records (self st') - total_records (self st)
  /\ 0 <= total_private (self st') - total_private (self st)
       <= total_records (self st') - total_records (self st).
Proof.
  intros H.
  destruct (can_open e (routed_output (self st))
            && can_open e (private_output (self st))) eqn:Hopen.
  2:{ destruct (collect_data_not_opened fuel e st Hopen) as (Hx & _).
      rewrite H in Hx. discriminate Hx. }
  apply andb_prop in Hopen as (Hr & Hp).
  rewrite (collect_data_opened fuel e st Hr Hp) in H.
  apply bind_inv in H as ([] & s1 & Hblock & Hsum).
  apply closing_inv in Hblock as (sL & Hloop & ->).
  apply collect_loop_accounted in Hloop; [|reflexivity|reflexivity].
  pose proof (tidy_print_summary e
                (set_routed_file (close (routed_file sL))
                   (set_private_file (close (private_file sL)) sL))) as Hk.
  rewrite Hsum in Hk. cbn [snd] in Hk.
  destruct Hk as (Kr & Kp & _ & _ & Kn & Kt & Kv).
  destruct Hloop as (_ & _ & Ar & Ap & Br & Bp).
  unfold texts_in in *.
  rewrite Kr, Kp, Kn, Kt, Kv.
  cbn [at_loop_entry self routed_file private_file set_routed_file
       set_private_file close written log List.length] in *.
  repeat split; lia.
Qed.

Lemma collect_data_closes_files_witness :
  status (routed_file (snd (collect_data 5 Example.broken (Example.fresh Example.broken))))
  = IsClosed
  /\ status (private_file
                (snd (collect_data 5 Example.broken (Example.fresh Example.broken))))
     = IsClosed
  /\ (exists texts,
         written (routed_file
                    (snd (collect_data 5 Example.broken (Example.fresh Example.broken))))
         = file_header Example.broken (self (Example.fresh Example.broken)) :: texts)
  /\ (exists texts,
         written (private_file
                    (snd (collect_data 5 Example.broken (Example.fresh Example.broken))))
         = file_header Example.broken (self (Example.fresh Example.broken)) :: texts).
Proof.
  apply (collect_data_closes_files 5 Example.broken (Example.fresh Example.broken));
    [reflexivity | reflexivity | vm_compute; discriminate].
Defined.

Lemma collect_data_totals_witness :
  texts_in (routed_file (snd (collect_data 5 Example.feed (Example.fresh Example.feed))))
  = 1 + (total_routed (self (snd (collect_data 5 Example.feed (Example.fresh Example.feed))))
         - total_routed (self (Example.fresh Example.feed)))
  /\ texts_in (private_file
                  (snd (collect_data 5 Example.feed (Example.fresh Example.feed))))
     = 1 + (total_private
              (self (snd (collect_data 5 Example.feed (Example.fresh Example.feed))))
            - total_private (self (Example.fresh Example.feed)))
  /\ 0 <= total_routed
            (self (snd (collect_data 5 Example.feed (Example.fresh Example.feed))))
          - total_routed (self (Example.fresh Example.feed))
       <= total_records
            (self (snd (collect_data 5 Example.feed (Example.fresh Example.feed))))
          - total_records (self (Example.fresh Example.feed))
  /\ 0 <= total_private
            (self (snd (collect_data 5 Example.feed (Example.fresh Example.feed))))
          - total_private (self (Example.fresh Example.feed))
       <= total_records
            (self (snd (collect_data 5 Example.feed (Example.fresh Example.feed))))
          - total_records (self (Example.fresh Example.feed)).
Proof.
  apply (collect_data_totals 5 Example.feed (Example.fresh Example.feed)
           (snd (collect_data 5 Example.feed (Example.fresh Example.feed)))).
  vm_compute. reflexivity.
Defined.

(** X8.  When one of the two files cannot be opened the run raises the
    error of [open] after its first line: no request is made, no summary is
    printed, the collector is untouched, and a routed file that was opened
    before the private one failed is left closed and empty, without a
    header. *)
Theorem collect_data_open_failure (fuel : nat) (e : env) (st : state) :
  can_open e (routed_output (self st)) && can_open e (private_output (self st)) = false ->
  fst (collect_data fuel e st) = Raise OSError
  /\ requests (snd (collect_data fuel e st)) = requests st
  /\ self (snd (collect_data fuel e st)) = self st
  /\ trace (snd (collect_data fuel e st))
     = (trace st ++ [Print ("Starting data collection from " ++ start_date (self st)
                            ++ " to present...")])%list
  /\ private_file (snd (collect_data fuel e st)) = private_file st
  /\ routed_file (snd (collect_data fuel e st))
     = if can_open e (routed_output (self st))
       then {| status := IsClosed; written := [] |}
       else routed_file st.
Proof.
  intros H.
  destruct (collect_data_not_opened fuel e st H) as (Hx & Hreq & Hself & Htrace).
  repeat (split; [assumption|]).
  unfold collect_data, bind, get_self, print, with_output_files.
  cbn [self log].
  destruct (can_open e (routed_output (self st))); cbn [andb] in H.
  - rewrite H. split; reflexivity.
  - split; reflexivity.
Qed.

Lemma collect_data_open_failure_witness :
  fst (collect_data 5 Example.locked (Example.fresh Example.locked)) = Raise OSError
  /\ requests (snd (collect_data 5 Example.locked (Example.fresh Example.locked)))
     = requests (Example.fresh Example.locked)
  /\ self (snd (collect_data 5 Example.locked (Example.fresh Example.locked)))
     = self (Example.fresh Example.locked)
  /\ trace (snd (collect_data 5 Example.locked (Example.fresh Example.locked)))
     = (trace (Example.fresh Example.locked)
        ++ [Print ("Starting data collection from "
                   ++ start_date (self (Example.fresh Example.locked))
                   ++ " to present...")])%list
  /\ private_file (snd (collect_data 5 Example.locked (Example.fresh Example.locked)))
     = private_file (Example.fresh Example.locked)
  /\ routed_file (snd (collect_data 5 Example.locked (Example.fresh Example.locked)))
     = if can_open Example.locked (routed_output (self (Example.fresh Example.locked)))
       then {| status := IsClosed; written := [] |}
       else routed_file (Example.fresh Example.locked).
Proof.
  apply (collect_data_open_failure 5 Example.locked (Example.fresh Example.locked)).
  reflexivity.
Defined.

(** * More on the estimate of the total *)

(** [update_progress] on a page with a "last" reference that is a string,
    while the estimate is unset or zero. *)
Lemma update_progress_unknown (data : pyval) (u : string) (st : state) :
  reference "hydra:last" data = Some (PStr u) ->
  estimate_known (estimated_total_pages (self st)) = false ->
  update_progress data st =
    match extract_total_pages u with
    | Some n =>
        (Ok tt,
         log (Print ("Estimated total pages: " ++ Int.to_str n))
           (set_self (set_estimated_total_pages n
                        (add_pages_processed 1 (self st))) st))
    | None => (Ok tt, set_self (add_pages_processed 1 (self st)) st)
    end.
Proof.
  intros Href Hest.
  destruct data as [| | | | |entries]; try discriminate Href.
  unfold reference in Href.
  destruct (Py.lookup "hydra:view" entries) as [view|] eqn:Hview;
    try discriminate Href.
  destruct view as [| | | | |view]; try discriminate Href.
  unfold update_progress, bind, modify_self, get_self, lift.
  cbn [self set_self add_pages_processed estimated_total_pages].
  rewrite Hest. cbn [negb Py.contains Py.getitem].
  rewrite Hview. cbn [Py.contains Py.getitem]. rewrite Href.
  destruct (extract_total_pages u); reflexivity.
Qed.

(** Once the estimate is known the page is not looked at. *)
Lemma update_progress_known (data : pyval) (st : state) :
  estimate_known (estimated_total_pages (self st)) = true ->
  update_progress data st = (Ok tt, set_self (add_pages_processed 1 (self st)) st).
Proof.
  intros Hest.
  unfold update_progress, bind, modify_self, get_self.
  cbn [self set_self add_pages_processed estimated_total_pages].
  rewrite Hest. reflexivity.
Qed.

Lemma find_later {A : Type} (f : A -> bool) (before after : list A) (x : A) :
  Forall (fun y => f y = false) before -> f x = true ->
  find f (before ++ x :: after) = Some x.
Proof.
  induction 1 as [|y before Hy _ IH]; intros Hx; simpl.
  - now rewrite Hx.
  - rewrite Hy. now apply IH.
Qed.

(** In [base?p1&...&page=N&...], with the page number not the first
    parameter, the first segment that starts with "page=" is [page=N]. *)
Lemma first_page_segment_later (base first value : string) (before after : list string) :
  Str.mem "&" base = false ->
  Str.startswith base "page=" = false ->
  Str.mem "&" first = false ->
  Forall (fun p => Str.mem "&" p = false /\ Str.startswith p "page=" = false) before ->
  Str.mem "&" value = false ->
  Forall (fun p => Str.mem "&" p = false) after ->
  first_page_segment (query_url base (first :: before ++ ("page=" ++ value) :: after))
  = Some ("page=" ++ value).
Proof.
  intros Hbase Hstart Hfirst Hbefore Hvalue Hafter.
  unfold first_page_segment.
  rewrite query_url_join, split_join.
  - apply (find_later _ ((base ++ "?" ++ first) :: before)); [|reflexivity].
    constructor.
    + apply startswith_base, Hstart.
    + eapply Forall_impl; [|exact Hbefore]. now intros p [_ Hp].
  - constructor.
    + rewrite !mem_append, Hbase, Hfirst. reflexivity.
    + apply Forall_app. split.
      * eapply Forall_impl; [|exact Hbefore]. now intros p [Hp _].
      * constructor; [|exact Hafter].
        rewrite mem_append, Hvalue. reflexivity.
Qed.

(** X9.  When the "last" reference of a page is [base?p1&...&page=N&...]
    with the page number after the first parameter, [N] free of "&" and
    "=" and read by [int] as [n], and no earlier parameter starting with
    "page=", [update_progress] stores [n] as the estimate and prints it,
    whether the estimate was unset or zero before. *)
Theorem update_progress_page_later (data : pyval) (base first value : string)
    (before after : list string) (n : Z) (st : state) :
  reference "hydra:last" data
    = Some (PStr (query_url base (first :: before ++ ("page=" ++ value) :: after))) ->
  Str.mem "&" base = false ->
  Str.startswith base "page=" = false ->
  Str.mem "&" first = false ->
  Forall (fun p => Str.mem "&" p = false /\ Str.startswith p "page=" = false) before ->
  Str.mem "&" value = false ->
  Str.mem "=" value = false ->
  Forall (fun p => Str.mem "&" p = false) after ->
  Int.of_str value = Some n ->
  estimate_known (estimated_total_pages (self st)) = false ->
  update_progress data st
  = (Ok tt,
     log (Print ("Estimated total pages: " ++ Int.to_str n))
       (set_self (set_estimated_total_pages n (add_pages_processed 1 (self st))) st)).
Proof.
  intros Href Hbase Hstart Hfirst Hbefore Hamp Heq Hafter Hint Hest.
  rewrite (update_progress_unknown data _ st Href Hest).
  rewrite extract_total_pages_first.
  rewrite (first_page_segment_later base first value before after
             Hbase Hstart Hfirst Hbefore Hamp Hafter).
  change ("page=" ++ value) with ("page" ++ String "=" value).
  rewrite split_append by reflexivity.
  rewrite (split_without _ _ Heq). cbn [nth_error].
  rewrite Hint. reflexivity.
Qed.

Lemma update_progress_page_later_witness :
  update_progress
    (Example.page_with_last "/sessions?timestamp[after]=2023-05-03&page=57")
    (Example.midway Example.steady 1 None)
  = (Ok tt,
     log (Print ("Estimated total pages: " ++ Int.to_str 57))
       (set_self (set_estimated_total_pages 57
                    (add_pages_processed 1 (self (Example.midway Example.steady 1 None))))
          (Example.midway Example.steady 1 None))).
Proof.
  apply (update_progress_page_later
           (Example.page_with_last "/sessions?timestamp[after]=2023-05-03&page=57")
           "/sessions" "timestamp[after]=2023-05-03" "57" [] [] 57
           (Example.midway Example.steady 1 None));
    try reflexivity; constructor.
Defined.

(** * The counters of the loop *)

Lemma next_reference_counts (data : pyval) (st : state) :
  (snd (next_reference data st) = st
   \/ snd (next_reference data st) = set_self (add_page 1 (self st)) st).
Proof.
  unfold next_reference, bind, lift, modify_self, ret.
  destruct (Py.contains data "hydra:view") as [[]| |]; cbn [snd]; auto.
  destruct (Py.getitem data "hydra:view") as [view| |]; cbn [snd]; auto.
  destruct (Py.contains view "hydra:next") as [[]| |]; cbn [snd]; auto.
  destruct (Py.getitem view "hydra:next") as [next| |]; cbn [snd]; auto.
Qed.

Lemma update_progress_counts (data : pyval) (st : state) :
  pages_processed (self (snd (update_progress data st))) = pages_processed (self st) + 1
  /\ page (self (snd (update_progress data st))) = page (self st)
  /\ requests (snd (update_progress data st)) = requests st
  /\ (estimate_known (estimated_total_pages (self st)) = true ->
      estimated_total_pages (self (snd (update_progress data st)))
      = estimated_total_pages (self st)).
Proof.
  destruct (estimate_known (estimated_total_pages (self st))) eqn:Hk.
  - rewrite (update_progress_known data st Hk). cbn. repeat split.
  - unfold update_progress, bind, modify_self, get_self, lift, raise, ret, print.
    cbn [self set_self add_pages_processed estimated_total_pages].
    rewrite Hk. cbn [negb].
    destruct (Py.contains data "hydra:view") as [[]| |]; cbn;
      try (repeat split; discriminate).
    destruct (Py.getitem data "hydra:view") as [view| |]; cbn;
      try (repeat split; discriminate).
    destruct (Py.contains view "hydra:last") as [[]| |]; cbn;
      try (repeat split; discriminate).
    destruct (Py.getitem view "hydra:last") as [[| | |u| |]| |]; cbn;
      try (repeat split; discriminate).
    destruct (extract_total_pages u); cbn; repeat split; discriminate.
Qed.

Lemma idle_step_refl (st : state) : idle_step st st.
Proof. split; reflexivity. Qed.

Lemma idle_step_trans (a b c : state) : idle_step a b -> idle_step b c -> idle_step a c.
Proof. intros [S1 R1] [S2 R2]. split; congruence. Qed.

Lemma idle_bind {A B : Type} (c : M A) (k : A -> M B) :
  idle c -> (forall a, idle (k a)) -> idle (bind c k).
Proof.
  intros Hc Hk st. unfold bind.
  specialize (Hc st). destruct (c st) as [[a|x|] st']; cbn [snd] in *;
    try assumption.
  eapply idle_step_trans; [exact Hc | apply Hk].
Qed.

Lemma idle_ret {A : Type} (a : A) : idle (ret a).
Proof. intros st. apply idle_step_refl. Qed.

Lemma idle_lift {A : Type} (r : result A) : idle (lift r).
Proof. intros st. apply idle_step_refl. Qed.

Lemma idle_routed_write (text : string) : idle (routed_write text).
Proof.
  intros st. unfold routed_write, write_to.
  destruct (status (routed_file st)); split; reflexivity.
Qed.

Lemma idle_private_write (text : string) : idle (private_write text).
Proof.
  intros st. unfold private_write, write_to.
  destruct (status (private_file st)); split; reflexivity.
Qed.

Lemma idle_for_each {A B : Type} (body : A -> B -> M B) (items : list A) :
  (forall x acc, idle (body x acc)) -> forall acc, idle (for_each body items acc).
Proof.
  intros Hbody. induction items as [|x items IH]; intros acc; cbn [for_each].
  - apply idle_ret.
  - apply idle_bind; [apply Hbody | exact IH].
Qed.

Create HintDb idle.

#[local] Hint Resolve idle_ret idle_lift idle_routed_write idle_private_write : idle.

Ltac idle_steps :=
  repeat first
    [ solve [auto with idle]
    | apply idle_bind; [|intro]
    | match goal with
      | |- idle (if ?b then _ else _) => destruct b
      end ].

Lemma idle_process_session (session : pyval) (counts : Z * Z) :
  idle (process_session session counts).
Proof. unfold process_session. idle_steps. Qed.

(** Whatever the page holds, and whether or not it raises, [process_data]
    leaves the collector and the request count alone. *)
Lemma idle_process_data (data : pyval) : idle (process_data data).
Proof.
  unfold process_data. idle_steps.
  apply idle_for_each. intros. apply idle_process_session.
Qed.

Lemma idle_display_progress (e : env) : idle (display_progress e).
Proof.
  intros st.
  destruct (display_progress_state e st) as (base & [-> | ->] & [-> | (text & ->)]);
    split; reflexivity.
Qed.

Lemma bind_post {A B : Type} (c : M A) (k : A -> M B) (st : state)
    (P : state -> Prop) :
  (forall r s, c st = (r, s) ->
               match r with Ok a => P (snd (k a s)) | _ => P s end) ->
  P (snd (bind c k st)).
Proof.
  intros H. unfold bind. specialize (H (fst (c st)) (snd (c st))).
  destruct (c st) as [[a|x|] s]; cbn [fst snd] in H; now apply H.
Qed.

(** One turn of the loop on a fetched page, however it ends: one more page
    processed, the page number up by one at most, no request, and a known
    estimate kept. *)
Lemma process_page_counts (e : env) (data : pyval) (st : state) :
  pages_processed (self (snd (process_page e data st))) = pages_processed (self st) + 1
  /\ page (self st) <= page (self (snd (process_page e data st))) <= page (self st) + 1
  /\ requests (snd (process_page e data st)) = requests st
  /\ (estimate_known (estimated_total_pages (self st)) = true ->
      estimated_total_pages (self (snd (process_page e data st)))
      = estimated_total_pages (self st)).
Proof.
  unfold process_page.
  apply (bind_post _ _ st (fun s =>
    pages_processed (self s) = pages_processed (self st) + 1
    /\ page (self st) <= page (self s) <= page (self st) + 1
    /\ requests s = requests st
    /\ (estimate_known (estimated_total_pages (self st)) = true ->
        estimated_total_pages (self s) = estimated_total_pages (self st)))).
  intros r1 s1 H1.
  pose proof (update_progress_counts data st) as U. rewrite H1 in U. cbn [snd] in U.
  destruct U as (U1 & U2 & U3 & U4).
  assert (Hidle : forall s, idle_step s1 s ->
            pages_processed (self s) = pages_processed (self st) + 1
            /\ page (self st) <= page (self s) <= page (self st) + 1
            /\ requests s = requests st
            /\ (estimate_known (estimated_total_pages (self st)) = true ->
                estimated_total_pages (self s) = estimated_total_pages (self st))).
  { intros s [Hs Hr]. rewrite Hs, Hr. repeat split; (lia || assumption). }
  destruct r1 as [[]|x|]; try (apply Hidle, idle_step_refl).
  apply bind_post. intros r2 s2 H2.
  pose proof (idle_process_data data s1) as D. rewrite H2 in D. cbn [snd] in D.
  destruct r2 as [counts|x|]; try (apply Hidle, D).
  apply bind_post. intros r3 s3 H3. unfold lift in H3. injection H3 as <- <-.
  destruct (Py.get data "hydra:member" (PList [])) as [members| |];
    try (apply Hidle, D).
  apply bind_post. intros r4 s4 H4. unfold lift in H4. injection H4 as <- <-.
  destruct (Py.len members) as [records| |]; try (apply Hidle, D).
  apply bind_post. intros r5 s5 H5. unfold modify_self in H5. injection H5 as <- <-.
  destruct D as (D1 & D2).
  apply bind_post. intros r6 s6 H6.
  pose proof (idle_display_progress e
                (set_self (add_totals records (fst counts) (snd counts) (self s2)) s2))
    as Q.
  rewrite H6 in Q. cbn [snd] in Q. destruct Q as (Q1 & Q2).
  cbn [self set_self requests] in Q1, Q2.
  assert (Hs6 : pages_processed (self s6) = pages_processed (self st) + 1
                /\ page (self s6) = page (self st)
                /\ requests s6 = requests st
                /\ estimated_total_pages (self s6) = estimated_total_pages (self s1)).
  { rewrite Q1, Q2. cbn [add_totals pages_processed page estimated_total_pages].
    rewrite D1, D2. repeat split; assumption. }
  destruct Hs6 as (S1 & S2 & S3 & S4).
  assert (Hend : pages_processed (self s6) = pages_processed (self st) + 1
                 /\ page (self st) <= page (self s6) <= page (self st) + 1
                 /\ requests s6 = requests st
                 /\ (estimate_known (estimated_total_pages (self st)) = true ->
                     estimated_total_pages (self s6) = estimated_total_pages (self st))).
  { rewrite S4. repeat split; (lia || assumption). }
  destruct r6 as [[]|x|]; try exact Hend.
  destruct (next_reference_counts data s6) as [-> | ->]; [exact Hend|].
  cbn [self set_self add_page pages_processed page requests estimated_total_pages].
  rewrite S4. repeat split; (lia || assumption).
Qed.

Lemma paced_refl (st : state) : paced st st.
Proof. unfold paced. repeat split; try lia. Qed.

Lemma paced_trans (a b c : state) : paced a b -> paced b c -> paced a c.
Proof.
  intros (E1 & P1 & R1) (E2 & P2 & R2). unfold paced. repeat split; try lia.
  intros Hk. rewrite E2; [exact (E1 Hk) | rewrite (E1 Hk); exact Hk].
Qed.

Lemma collect_loop_paced (fuel : nat) (e : env) :
  forall (next : pyval) (st : state), paced st (snd (collect_loop fuel e next st)).
Proof.
  induction fuel as [|fuel IH]; intros next st; cbn [collect_loop];
    destruct (Py.truthy next); try apply paced_refl.
  unfold bind at 1. unfold get_self at 1. unfold bind at 1.
  pose proof (fetch_page_requests e (api_base (self st) ++ Py.str next) st) as Hreq.
  destruct (fetch_page e (api_base (self st) ++ Py.str next) st) as [r s1] eqn:Hfetch.
  destruct (fetch_page_frame e _ _ _ _ Hfetch) as (Hself & _).
  cbn [snd] in Hreq.
  assert (Hs1 : paced st s1).
  { unfold paced. rewrite Hself. repeat split; lia. }
  destruct r as [data|x|]; cbn [snd]; try exact Hs1.
  destruct (negb (Py.truthy data)).
  - unfold print. cbn [snd]. unfold paced in *. cbn [self requests log]. exact Hs1.
  - unfold bind.
    destruct (process_page_counts e data s1) as (C1 & C2 & C3 & C4).
    specialize (IH).
    destruct (process_page e data s1) as [[next'|x|] s2]; cbn [snd] in *.
    + eapply paced_trans; [|apply IH].
      unfold paced. rewrite <- Hself in *. repeat split; try lia.
      intros Hk. apply C4. exact Hk.
    + unfold paced. rewrite <- Hself in *. repeat split; try lia.
      intros Hk. apply C4. exact Hk.
    + unfold paced. rewrite <- Hself in *. repeat split; try lia.
      intros Hk. apply C4. exact Hk.
Qed.

(** X10.  Once an estimate of the total is known (set and not zero), the
    loop never changes it, through any number of pages and whether it
    returns, raises or is cut short. *)
Theorem estimate_set_once (fuel : nat) (e : env) (next : pyval) (st : state) :
  estimate_known (estimated_total_pages (self st)) = true ->
  estimated_total_pages (self (snd (collect_loop fuel e next st)))
  = estimated_total_pages (self st).
Proof. intros Hk. now apply (collect_loop_paced fuel e next st). Qed.

Lemma estimate_set_once_witness :
  estimated_total_pages
    (self (snd (collect_loop 5 Example.feed (PStr "/sessions")
                  (Example.collected Example.feed))))
  = estimated_total_pages (self (Example.collected Example.feed)).
Proof.
  apply (estimate_set_once 5 Example.feed (PStr "/sessions")
           (Example.collected Example.feed)).
  reflexivity.
Defined.

(** X11.  However the loop ends, the page number it shows grew by no more
    than the number of pages it processed, and it processed no more pages
    than it made requests. *)
Theorem collect_loop_counters (fuel : nat) (e : env) (next : pyval) (st : state) :
  0 <= page (self (snd (collect_loop fuel e next st))) - page (self st)
    <= pages_processed (self (snd (collect_loop fuel e next st)))
       - pages_processed (self st)
  /\ pages_processed (self (snd (collect_loop fuel e next st)))
       - pages_processed (self st)
     <= Z.of_nat (requests (snd (collect_loop fuel e next st))) - Z.of_nat (requests st).
Proof. apply (collect_loop_paced fuel e next st). Qed.

(** * More on the formatter *)

Lemma append_cancel (a b c : string) : a ++ b = a ++ c -> b = c.
Proof.
  induction a as [|x a IH]; cbn [String.append]; intros H; [exact H|].
  injection H as H. now apply IH.
Qed.

Lemma Ok_inj {A : Type} (a b : A) : Ok a = Ok b -> a = b.
Proof. intros H. now injection H. Qed.

Lemma lookup_other (k key : string) (v : pyval) (d : list (string * pyval)) :
  (k =? key)%string = false -> Py.lookup key ((k, v) :: d) = Py.lookup key d.
Proof. intros H. cbn [Py.lookup]. now rewrite H. Qed.

Lemma lookup_same (key : string) (v : pyval) (d : list (string * pyval)) :
  Py.lookup key ((key, v) :: d) = Some v.
Proof. cbn [Py.lookup]. now rewrite String.eqb_refl. Qed.

Ltac lookups :=
  rewrite ?lookup_same; rewrite ?lookup_other by reflexivity.

(** X12.  For each of the six fields read with a default, in a record that
    lacks it: the line is the one of the same record with the text "N/A"
    in that field; a null in that field is written as the text "None"
    would be; and so the line tells a null from a missing field. *)
Theorem format_record_null_field (d : list (string * pyval)) (key : string) :
  In key defaulted_fields ->
  Py.lookup key d = None ->
  format_record (PDict ((key, PStr "N/A") :: d)) = format_record (PDict d)
  /\ format_record (PDict ((key, PNone) :: d))
     = format_record (PDict ((key, PStr "None") :: d))
  /\ format_record (PDict ((key, PNone) :: d)) <> format_record (PDict d).
Proof.
  intros Hin Hd.
  unfold format_record, Py.get, and_then.
  cbn [In defaulted_fields] in Hin.
  repeat (destruct Hin as [<- | Hin]); try contradiction;
    lookups; rewrite Hd; (split; [reflexivity|]); (split; [reflexivity|]);
    intros H; apply Ok_inj in H;
    repeat (apply append_cancel in H); cbn in H; discriminate H.
Qed.

Lemma format_record_null_field_witness :
  format_record (PDict (("country", PStr "N/A") :: Example.no_address))
  = format_record (PDict Example.no_address)
  /\ format_record (PDict (("country", PNone) :: Example.no_address))
     = format_record (PDict (("country", PStr "None") :: Example.no_address))
  /\ format_record (PDict (("country", PNone) :: Example.no_address))
     <> format_record (PDict Example.no_address).
Proof.
  apply (format_record_null_field Example.no_address "country").
  - cbn [In defaulted_fields]. right. right. left. reflexivity.
  - reflexivity.
Defined.

(** * A payload that is not an object *)

(** A page that is anything but an object makes the turn raise before
    anything is written or requested. *)
Lemma process_page_not_object (e : env) (data : pyval) (st : state) :
  (forall entries, data <> PDict entries) ->
  exists x st',
    process_page e data st = (Raise x, st')
    /\ (x = TypeError \/ x = AttributeError)
    /\ routed_file st' = routed_file st
    /\ private_file st' = private_file st
    /\ requests st' = requests st
    /\ trace st' = trace st.
Proof.
  intros Hdata.
  unfold process_page, update_progress, process_data, bind, modify_self, get_self,
    lift, raise, ret.
  cbn [self set_self add_pages_processed estimated_total_pages].
  destruct data as [|b|n|s|items|entries];
    try (exfalso; apply (Hdata entries); reflexivity);
    destruct (estimate_known (estimated_total_pages (self st)));
    cbn [negb Py.contains Py.getitem Py.get];
    try destruct (Str.contains s "hydra:view");
    try destruct (existsb _ items);
    eexists; eexists; (split; [reflexivity|]); cbn; auto 10.
Qed.

(** X13.  When both files open and the first answer is valid JSON that is
    truthy and not an object (a list, a text, a number, [true]), the run
    raises [TypeError] or [AttributeError] after that one request: no
    summary is printed, and both files are closed holding the header
    alone. *)
Theorem collect_data_bad_payload (fuel : nat) (e : env) (st : state) (data : pyval) :
  can_open e (routed_output (self st)) = true ->
  can_open e (private_output (self st)) = true ->
  net e (requests st)
    (api_base (self st) ++ "/sessions?timestamp[after]=" ++ start_date (self st))
  = Response data ->
  Py.truthy data = true ->
  (forall entries, data <> PDict entries) ->
  exists x st',
    collect_data (S fuel) e st = (Raise x, st')
    /\ (x = TypeError \/ x = AttributeError)
    /\ routed_file st'
       = {| status := IsClosed; written := [file_header e (self st)] |}
    /\ private_file st'
       = {| status := IsClosed; written := [file_header e (self st)] |}
    /\ requests st' = S (requests st)
    /\ trace st'
       = (trace st
          ++ [Print ("Starting data collection from " ++ start_date (self st)
                     ++ " to present...");
              Get (api_base (self st) ++ "/sessions?timestamp[after]="
                   ++ start_date (self st))])%list.
Proof.
  intros Hr Hp Hnet Htruthy Hdata.
  rewrite (collect_data_opened (S fuel) e st Hr Hp).
  unfold bind at 1. unfold closing.
  cbn [collect_loop].
  change (Py.truthy (PStr ("/sessions?timestamp[after]=" ++ start_date (self st))))
    with true.
  cbv iota. unfold bind at 1. unfold get_self at 1. unfold bind at 1.
  unfold fetch_page. rewrite range_max_retries.
  rewrite (fetch_attempts_response e _ 0 [1; 2] 2 (at_loop_entry e st) data)
    by exact Hnet.
  rewrite Htruthy. cbn [negb]. unfold bind at 1.
  destruct (process_page_not_object e data (after [Get
              (api_base (self (at_loop_entry e st))
               ++ Py.str (PStr ("/sessions?timestamp[after]=" ++ start_date (self st))))]
              1 (at_loop_entry e st)) Hdata)
    as (x & s' & Hpage & Hx & Hrf & Hpf & Hreq & Htrace).
  rewrite Hpage.
  exists x. eexists. split; [reflexivity|].
  split; [exact Hx|].
  cbn [routed_file private_file requests trace set_routed_file set_private_file close
       status written].
  rewrite Hrf, Hpf, Hreq, Htrace.
  cbn [after at_loop_entry routed_file private_file requests trace set_routed_file
       set_private_file log written status self Py.str].
  rewrite <- app_assoc. repeat split.
Qed.

Lemma collect_data_bad_payload_witness :
  exists x st',
    collect_data 1 Example.listing (Example.fresh Example.listing) = (Raise x, st')
    /\ (x = TypeError \/ x = AttributeError)
    /\ routed_file st'
       = {| status := IsClosed;
            written := [file_header Example.listing
                          (self (Example.fresh Example.listing))] |}
    /\ private_file st'
       = {| status := IsClosed;
            written := [file_header Example.listing
                          (self (Example.fresh Example.listing))] |}
    /\ requests st' = S (requests (Example.fresh Example.listing))
    /\ trace st'
       = (trace (Example.fresh Example.listing)
          ++ [Print ("Starting data collection from "
                     ++ start_date (self (Example.fresh Example.listing))
                     ++ " to present...");
              Get (api_base (self (Example.fresh Example.listing))
                   ++ "/sessions?timestamp[after]="
                   ++ start_date (self (Example.fresh Example.listing)))])%list.
Proof.
  apply (collect_data_bad_payload 0 Example.listing (Example.fresh Example.listing)
           (PList [PDict Example.both]));
    try reflexivity.
  intros entries H. discriminate H.
Defined.

(** * The classifier on a page *)

Lemma routed_texts_app (a b : list (list (string * pyval))) :
  routed_texts (a ++ b) = (routed_texts a ++ routed_texts b)%list.
Proof. unfold routed_texts. now rewrite filter_app, map_app. Qed.

Lemma private_texts_app (a b : list (list (string * pyval))) :
  private_texts (a ++ b) = (private_texts a ++ private_texts b)%list.
Proof. unfold private_texts. now rewrite filter_app, map_app. Qed.

(** The texts of an eligible record. *)
Lemma eligible_texts (d : list (string * pyval)) (line : string) :
  eligible d = true ->
  record_line d = line ++ LF ->
  routed_texts [d]
  = (if Py.eq_str (field d "routedspoof") "received" then [line ++ LF] else [])
  /\ private_texts [d]
     = (if Py.eq_str (field d "privatespoof") "received" then [line ++ LF] else []).
Proof.
  intros Hel Hline. unfold routed_texts, private_texts, is_received.
  cbn [filter]. rewrite Hel. cbn [andb].
  split.
  - destruct (Py.eq_str (field d "routedspoof") "received"); cbn [map];
      now rewrite ?Hline.
  - destruct (Py.eq_str (field d "privatespoof") "received"); cbn [map];
      now rewrite ?Hline.
Qed.

(** C1.  In a page of records, with both streams open, an eligible record
    (one that passes the test on its address field, as every record with a
    non-empty string there does) adds to the routed file, between the
    texts of the records before it and those of the records after it,
    exactly one text, its formatted line, when its field [routedspoof] is
    the string "received", and nothing otherwise; independently it adds
    to the private file by the same rule on [privatespoof].  The line is
    the same in both files, the two counts [process_data] returns are the
    numbers of texts added, and nothing but the files changes. *)
Theorem classify_eligible (data : pyval) (before after : list (list (string * pyval)))
    (d : list (string * pyval)) (st : state) :
  Py.get data "hydra:member" (PList []) = Ok (PList (map PDict (before ++ d :: after))) ->
  eligible d = true ->
  status (routed_file st) = IsOpen ->
  status (private_file st) = IsOpen ->
  exists (line : string) (own_routed own_private : list string) (st' : state),
    format_record (PDict d) = Ok line
    /\ process_data data st
       = (Ok (Z.of_nat (List.length
                          (routed_texts before ++ own_routed ++ routed_texts after)),
              Z.of_nat (List.length
                          (private_texts before ++ own_private ++ private_texts after))),
          st')
    /\ appended (routed_file st) (routed_file st')
         (routed_texts before ++ own_routed ++ routed_texts after)
    /\ appended (private_file st) (private_file st')
         (private_texts before ++ own_private ++ private_texts after)
    /\ same_but_files st st'
    /\ (own_routed = [line ++ LF] <-> received d "routedspoof")
    /\ (own_routed = [] <-> ~ received d "routedspoof")
    /\ (own_private = [line ++ LF] <-> received d "privatespoof")
    /\ (own_private = [] <-> ~ received d "privatespoof").
Proof.
  intros Hget Hel Hr Hp.
  destruct (record_line_format d) as (line & Hline & Hrec).
  destruct (eligible_texts d line Hel Hrec) as (Hown_r & Hown_p).
  destruct (process_records (before ++ d :: after) 0 0 st Hr Hp)
    as (st' & Hrun & Ha & Hb & Hsame).
  rewrite routed_texts_app, (routed_texts_cons d after), Hown_r in Hrun, Ha.
  rewrite private_texts_app, (private_texts_cons d after), Hown_p in Hrun, Hb.
  destruct (texts_iff _ _ (line ++ LF) (eq_str_received d "routedspoof")) as [Er1 Er2].
  destruct (texts_iff _ _ (line ++ LF) (eq_str_received d "privatespoof")) as [Ep1 Ep2].
  exists line.
  exists (if Py.eq_str (field d "routedspoof") "received" then [line ++ LF] else []).
  exists (if Py.eq_str (field d "privatespoof") "received" then [line ++ LF] else []).
  exists st'.
  split; [exact Hline|].
  split.
  { unfold process_data, bind, lift. rewrite Hget. cbn [Py.iter]. exact Hrun. }
  split; [exact Ha|]. split; [exact Hb|]. split; [exact Hsame|].
  split; [exact Er1|]. split; [exact Er2|]. split; [exact Ep1 | exact Ep2].
Qed.

Lemma classify_eligible_witness :
  exists (line : string) (own_routed own_private : list string) (st' : state),
    format_record (PDict Example.both) = Ok line
    /\ process_data
         (Example.page_of [PDict Example.routed_only; PDict Example.both;
                           PDict Example.neither] [])
         (Example.running Example.steady)
       = (Ok (Z.of_nat (List.length
                          (routed_texts [Example.routed_only] ++ own_routed
                           ++ routed_texts [Example.neither])),
              Z.of_nat (List.length
                          (private_texts [Example.routed_only] ++ own_private
                           ++ private_texts [Example.neither]))),
          st')
    /\ appended (routed_file (Example.running Example.steady)) (routed_file st')
         (routed_texts [Example.routed_only] ++ own_routed
          ++ routed_texts [Example.neither])
    /\ appended (private_file (Example.running Example.steady)) (private_file st')
         (private_texts [Example.routed_only] ++ own_private
          ++ private_texts [Example.neither])
    /\ same_but_files (Example.running Example.steady) st'
    /\ (own_routed = [line ++ LF] <-> received Example.both "routedspoof")
    /\ (own_routed = [] <-> ~ received Example.both "routedspoof")
    /\ (own_private = [line ++ LF] <-> received Example.both "privatespoof")
    /\ (own_private = [] <-> ~ received Example.both "privatespoof").
Proof.
  apply (classify_eligible
           (Example.page_of [PDict Example.routed_only; PDict Example.both;
                             PDict Example.neither] [])
           [Example.routed_only] [Example.neither] Example.both
           (Example.running Example.steady));
    reflexivity.
Defined.

(** * A fetch that fails in the middle of a run *)

(** The loop with fuel for [n] turns more than it is given afterwards. *)
Lemma collect_loop_turns (e : env) (n : nat) (next next' : pyval) (st st' : state) :
  turns e n next st next' st' ->
  forall k, collect_loop (n + k) e next st = collect_loop k e next' st'.
Proof.
  induction 1 as [next st | n next data next1 next' st s1 s2 st'
                                Hnext Hfetch Hdata Hpage _ IH];
    intros k; [reflexivity|].
  cbn [Nat.add collect_loop]. rewrite Hnext.
  unfold bind at 1. unfold get_self at 1. unfold bind at 1.
  rewrite Hfetch, Hdata. cbn [negb].
  unfold bind at 1. rewrite Hpage. apply IH.
Qed.

Lemma turns_advances (e : env) (n : nat) (next next' : pyval) (st st' : state) :
  turns e n next st next' st' -> advances st st'.
Proof.
  induction 1 as [next st | n next data next1 next' st s1 s2 st'
                                Hnext Hfetch Hdata Hpage _ IH];
    [apply advances_refl|].
  pose proof (steady_fetch_page e (api_base (self st) ++ Py.str next) st) as H1.
  rewrite Hfetch in H1.
  pose proof (steady_process_page e data s1) as H2. rewrite Hpage in H2.
  cbn [snd] in H1, H2.
  eapply advances_trans; [exact H1|].
  eapply advances_trans; [exact H2 | exact IH].
Qed.

(** C5.  In a run of [collect_data] whose files were opened, after any
    number of turns of the loop, when the fetcher returns nothing (a value
    that does not pass [if not data]), the run ends gracefully: it
    returns, raising nothing; both files are closed and hold what they
    held when the fetch began, the header first; and after the notice the
    summary is printed from the collector as it stood.  The clock reading
    is taken to give a running time that is a number [timedelta] can
    hold. *)
Theorem failed_fetch_ends_gracefully (e : env) (fuel n : nat) (next data : pyval)
    (st s s1 : state) (seconds : Z) :
  can_open e (routed_output (self st)) = true ->
  can_open e (private_output (self st)) = true ->
  turns e n (PStr ("/sessions?timestamp[after]=" ++ start_date (self st)))
    (at_loop_entry e st) next s ->
  Py.truthy next = true ->
  fetch_page e (api_base (self s) ++ Py.str next) s = (Ok data, s1) ->
  Py.truthy data = false ->
  Flt.to_int (PrimFloat.sub (clock e (ticks s)) (start_time (self s))) = Ok seconds ->
  timedelta_range seconds ->
  exists (total_time : string) (st' : state),
    collect_data (S (n + fuel)) e st = (Ok tt, st')
    /\ timedelta_str seconds = Ok total_time
    /\ status (routed_file st') = IsClosed
    /\ status (private_file st') = IsClosed
    /\ written (routed_file st') = written (routed_file s)
    /\ written (private_file st') = written (private_file s)
    /\ (exists texts, written (routed_file st') = file_header e (self st) :: texts)
    /\ (exists texts, written (private_file st') = file_header e (self st) :: texts)
    /\ self st' = self s
    /\ trace st' = (trace s1 ++ stop_notice :: summary (self s) total_time)%list.
Proof.
  intros Hro Hpo Hturns Hnext Hfetch Hdata Hint Hrange.
  destruct (timedelta_str_in_range seconds Hrange) as [total_time Htd].
  destruct (fetch_page_frame e _ s s1 _ Hfetch) as (Hself & Hticks & Hrf & Hpf).
  destruct (turns_advances e n _ _ _ _ Hturns)
    as (_ & _ & _ & (tr & _ & Wr) & (tp & _ & Wp)).
  cbn [at_loop_entry routed_file private_file set_routed_file set_private_file
       written log] in Wr, Wp.
  exists total_time.
  rewrite (collect_data_opened (S (n + fuel)) e st Hro Hpo).
  unfold bind at 1. unfold closing at 1.
  replace (S (n + fuel)) with (n + S fuel)%nat by lia.
  rewrite (collect_loop_turns e n _ _ _ _ Hturns (S fuel)).
  rewrite (collect_loop_failed_fetch e fuel next data s s1 Hnext Hfetch Hdata).
  rewrite (print_summary_ok e _ seconds total_time).
  - eexists. split; [reflexivity|].
    cbn [self requests ticks trace routed_file private_file status written
         count_tick after log set_routed_file set_private_file close].
    rewrite Hrf, Hpf, Hself, Wr, Wp, <- app_assoc.
    repeat split; try reflexivity; try assumption; eexists; reflexivity.
  - cbn [self requests ticks trace routed_file private_file
         log set_routed_file set_private_file].
    now rewrite Hself, Hticks.
  - exact Htd.
Qed.

Lemma failed_fetch_ends_gracefully_witness :
  exists (total_time : string) (st' : state),
    collect_data 2 Example.cut_off (Example.fresh Example.cut_off) = (Ok tt, st')
    /\ timedelta_str 4 = Ok total_time
    /\ status (routed_file st') = IsClosed
    /\ status (private_file st') = IsClosed
    /\ written (routed_file st') = written (routed_file Example.after_first_page)
    /\ written (private_file st') = written (private_file Example.after_first_page)
    /\ (exists texts,
          written (routed_file st')
          = file_header Example.cut_off (self (Example.fresh Example.cut_off)) :: texts)
    /\ (exists texts,
          written (private_file st')
          = file_header Example.cut_off (self (Example.fresh Example.cut_off)) :: texts)
    /\ self st' = self Example.after_first_page
    /\ trace st'
       = (trace (snd (fetch_page Example.cut_off
                        ("https://api.spoofer.caida.org" ++ "/sessions?page=2")
                        Example.after_first_page))
          ++ stop_notice :: summary (self Example.after_first_page) total_time)%list.
Proof.
  apply (failed_fetch_ends_gracefully Example.cut_off 0 1
           (PStr "/sessions?page=2") PNone
           (Example.fresh Example.cut_off)
           Example.after_first_page
           (snd (fetch_page Example.cut_off
                   ("https://api.spoofer.caida.org" ++ "/sessions?page=2")
                   Example.after_first_page))
           4).
  - reflexivity.
  - reflexivity.
  - apply (turns_more Example.cut_off 0 _ Example.first_page
             (PStr "/sessions?page=2") (PStr "/sessions?page=2") _
             (snd (fetch_page Example.cut_off
                     "https://api.spoofer.caida.org/sessions?timestamp[after]=2023-05-03"
                     (at_loop_entry Example.cut_off (Example.fresh Example.cut_off))))
             Example.after_first_page Example.after_first_page).
    + reflexivity.
    + vm_compute. reflexivity.
    + reflexivity.
    + vm_compute. reflexivity.
    + apply turns_none.
  - reflexivity.
  - vm_compute. reflexivity.
  - reflexivity.
  - vm_compute. reflexivity.
  - unfold timedelta_range. cbn. lia.
Defined.
